(** * FastEstimator [System]: training-state bookkeeping, save and restore

    A shallow embedding of [fastestimator/summary/system.py].  Python values
    are dynamically typed, so the attributes of a [System] are cells holding
    a [value]; the collaborators the class imports ([BaseNetwork], [Pipeline],
    [Summary]) are records.  Exceptions are explicit: every method that can
    raise returns the state it leaves behind together with a [result]. *)

From Stdlib Require Import ZArith Lia Bool.
From stdpp Require Import base option list strings gmap pretty.

Set Warnings "-register-all".

Local Open Scope string_scope.
Local Open Scope Z_scope.

(** ** Plain Python data *)

(** What [json.load] and [pickle.load] hand back for the state blobs: scalars,
    lists and dictionaries.  Integers are unbounded, as in Python.  Floating
    point numbers are left out. *)
Inductive value : Type :=
| VNone
| VBool (b : bool)
| VInt (z : Z)
| VStr (s : string)
| VList (l : list value)
| VDict (d : list (value * value)).

(** A dictionary keeps its insertion order ([items()] walks it in that order),
    so it is an association list; the keys are hashable values. *)
Definition dict (V : Type) : Type := list (value * V).

(** [bool(v)] *)
Definition truthy (v : value) : bool :=
  match v with
  | VNone => false
  | VBool b => b
  | VInt z => negb (z =? 0)
  | VStr s => negb (String.eqb s "")
  | VList l => match l with [] => false | _ => true end
  | VDict d => match d with [] => false | _ => true end
  end.

(** [a or b] *)
Definition py_or (a b : value) : value := if truthy a then a else b.

(** [hash(v)] is defined for scalars only; lists and dicts are unhashable. *)
Definition hashable (v : value) : bool :=
  match v with
  | VNone | VBool _ | VInt _ | VStr _ => true
  | VList _ | VDict _ => false
  end.

(** Equality of dictionary keys.  [True == 1] and [False == 0] in Python, and
    they hash alike, so a bool and an int name the same slot. *)
Definition key_eqb (a b : value) : bool :=
  match a, b with
  | VNone, VNone => true
  | VStr s, VStr t => String.eqb s t
  | VBool x, VBool y => Bool.eqb x y
  | VInt x, VInt y => x =? y
  | VBool x, VInt y => (if x then 1 else 0) =? y
  | VInt x, VBool y => x =? (if y then 1 else 0)
  | _, _ => false
  end.

Section Dict.
Context {V : Type}.

(** [d.get(k)] *)
Fixpoint dict_get (k : value) (d : dict V) : option V :=
  match d with
  | [] => None
  | (k', v) :: d' => if key_eqb k' k then Some v else dict_get k d'
  end.

(** [d[k] = v]: an existing slot keeps its place (and its key object), a
    new one goes to the end. *)
Fixpoint dict_set (k : value) (v : V) (d : dict V) : dict V :=
  match d with
  | [] => [(k, v)]
  | (k', v') :: d' =>
      if key_eqb k' k then (k', v) :: d' else (k', v') :: dict_set k v d'
  end.

(** [d.pop(k, None)], result dropped: the slot of [k] goes, if there is
    one. *)
Definition dict_pop (k : value) (d : dict V) : dict V :=
  List.filter (fun kv => negb (key_eqb (fst kv) k)) d.

(** [k in d.keys()] *)
Definition dict_mem (k : value) (d : dict V) : bool :=
  match dict_get k d with Some _ => true | None => false end.

Definition dict_keys (d : dict V) : list value := map fst d.
End Dict.

(** ** Exceptions *)

(** The messages of the [FileNotFoundError]s raised by [System]. *)
Inductive missing : Type :=
| SystemSummaryFile (path : string)   (* "Could not find system summary file at {path}" *)
| SummaryFile (path : string)         (* "Could not find summary file at {path}" *)
| ModelWeightsFile (path : string)    (* "Cannot find model weights file at {path}" *)
| ModelOptimizerFile (path : string). (* "Cannot find model optimizer file at {path}" *)

(** [type(states)] as the messages print it. *)
Inductive pytype : Type :=
| TNoneType | TBool | TInt | TStr | TList | TDict | TSummary.

(** The messages of the [ValueError]s raised by [System]. *)
Inductive invalid : Type :=
| UnknownModelType                                   (* "Unknown model type: ..." *)
| ExpectedList (path : string) (found : pytype)     (* "Expected {path} to contain a list, but found a ..." *)
| WrongCount (path : string) (expected found : nat)  (* "Expected {} to contain {} objects, but found {} instead" *)
| ExpectedDict (path : string) (found : pytype)     (* "Expected {path} to contain a dict, but found a ..." *)
| UnexpectedKeys (path : string) (keys : list value) (* "{} contained unexpected keys: {}" *)
| UpdateSequenceLength.                              (* dict.update: "... has length n; 2 is required" *)

Inductive exn : Type :=
| FileNotFoundError (m : missing)
| ValueError (m : invalid)
| TypeError
| AttributeError
| JSONDecodeError
| UnicodeDecodeError
| UnpicklingError
| EOFError
| KeyError
| ExternalError (code : Z).  (* raised inside a collaborator's own code *)

Inductive result (A : Type) : Type :=
| Ok (a : A)
| Raise (e : exn).
Arguments Ok {A} a.
Arguments Raise {A} e.

(** A method that mutates an object of type [S]: the object as the call
    leaves it, and either the returned value or the exception.  What was
    mutated before a [raise] stays mutated. *)
Definition M (S A : Type) : Type := S -> S * result A.

Definition ret {S A} (a : A) : M S A := fun s => (s, Ok a).
Definition raise {S A} (e : exn) : M S A := fun s => (s, Raise e).
Definition bind {S A B} (m : M S A) (k : A -> M S B) : M S B :=
  fun s => match m s with
           | (s', Ok a) => k a s'
           | (s', Raise e) => (s', Raise e)
           end.
Definition get {S} : M S S := fun s => (s, Ok s).
Definition modify {S} (f : S -> S) : M S unit := fun s => (f s, Ok tt).
Definition lift_result {S A} (r : result A) : M S A := fun s => (s, r).

Declare Scope py_scope.
Delimit Scope py_scope with py.
Notation "'do' x <- m 'in' k" := (bind m (fun x => k))
  (at level 10, x name, m at level 200, k at level 200) : py_scope.
Local Open Scope py_scope.

(** [for x in xs: body x] *)
Fixpoint for_each {S A} (xs : list A) (body : A -> M S unit) : M S unit :=
  match xs with
  | [] => ret tt
  | x :: xs' => bind (body x) (fun _ => for_each xs' body)
  end.

(** ** Collaborator objects *)

(** Traces, tensor ops, numpy ops and datasets are only ever probed with
    [hasattr]: what matters of a class is which of the three hooks its
    instances answer to. *)
Record objclass : Type := {
  cls_name : string;
  has_getstate : bool;   (* hasattr(obj, '__getstate__') *)
  has_setstate : bool;   (* hasattr(obj, '__setstate__') *)
  has_dict : bool        (* hasattr(obj, '__dict__') *)
}.

(** An entry of a collaborator list: an instance with its field bag, or a
    plain value ("a None or something else that can't be updated"), which
    answers to none of the hooks (the Python versions the framework runs on
    give [object] no [__getstate__]). *)
Inductive pyobj : Type :=
| Plain (v : value)
| Inst (c : objclass) (fields : dict value).

Definition hasattr_getstate (o : pyobj) : bool :=
  match o with Plain _ => false | Inst c _ => has_getstate c end.
Definition hasattr_setstate (o : pyobj) : bool :=
  match o with Plain _ => false | Inst c _ => has_setstate c end.
Definition hasattr_dict (o : pyobj) : bool :=
  match o with Plain _ => false | Inst c _ => has_dict c end.

(** [isinstance(model, tf.keras.Model)], [isinstance(model, torch.nn.Module)] *)
Inductive model_type : Type := KerasModel | TorchModule | OtherModel.

Record Model : Type := {
  model_kind : model_type;
  model_name : string;
  weights : value;
  optimizer : value
}.

Module Network.
Record t : Type := mk { models : list Model; ops : list pyobj }.
End Network.

Module Pipeline.
Record t : Type := mk { data : dict pyobj; ops : list pyobj }.
End Pipeline.

(** Modelled from the spec: the [Summary] class of
    [fastestimator/summary/summary.py] is not part of the sources.  It is the
    metric log, "mapping: mode -> metric name -> step -> value", tagged by an
    experiment name and a configuration snapshot; it "only persists history
    if name is non-empty", so its truth value is that of its name, and its
    history creates the inner mappings on first use. *)
Module Summary.
Record t : Type := mk {
  name : value;
  system_config : value;
  history : dict (dict (dict value))
}.

(** [Summary(name, system_config)] *)
Definition new (name system_config : value) : t := mk name system_config [].

(** [bool(summary)] *)
Definition bool (s : t) : Datatypes.bool := truthy (name s).

(** [history[mode][key][step]], read *)
Definition lookup (mode key step : value) (h : dict (dict (dict value))) : option value :=
  match dict_get mode h with
  | Some by_key =>
      match dict_get key by_key with
      | Some by_step => dict_get step by_step
      | None => None
      end
  | None => None
  end.

Definition set_name (v : value) (s : t) : t := mk v (system_config s) (history s).
Definition set_history (h : dict (dict (dict value))) (s : t) : t :=
  mk (name s) (system_config s) h.
End Summary.

(** ** The clock *)

Record datetime : Type := {
  year : nat; month : nat; day : nat; hour : nat; minute : nat; second : nat
}.

Definition two_digits (n : nat) : string :=
  if (n <? 10)%nat then "0" +:+ pretty n else pretty n.

(** [t.strftime("%Y%m%d-%H%M%S")] *)
Definition strftime (t : datetime) : string :=
  pretty (year t) +:+ two_digits (month t) +:+ two_digits (day t) +:+ "-" +:+
  two_digits (hour t) +:+ two_digits (minute t) +:+ two_digits (second t).

(** ** JSON and the files of a checkpoint directory *)

Inductive json : Type :=
| JNull
| JBool (b : bool)
| JNum (z : Z)
| JStr (s : string)
| JArr (l : list json)
| JObj (l : list (string * json)).

(** [json.dump] writes every dictionary key as a string. *)
Definition json_key (k : value) : option string :=
  match k with
  | VStr s => Some s
  | VInt z => Some (pretty z)
  | VBool true => Some "true"
  | VBool false => Some "false"
  | VNone => Some "null"
  | VList _ | VDict _ => None
  end.

(** [json.dump]; [None] stands for its [TypeError]. *)
Fixpoint json_dump (v : value) : option json :=
  match v with
  | VNone => Some JNull
  | VBool b => Some (JBool b)
  | VInt z => Some (JNum z)
  | VStr s => Some (JStr s)
  | VList l =>
      JArr <$>
      (fix go (l : list value) : option (list json) :=
         match l with
         | [] => Some []
         | x :: l' =>
             match json_dump x, go l' with
             | Some j, Some js => Some (j :: js)
             | _, _ => None
             end
         end) l
  | VDict d =>
      JObj <$>
      (fix go (d : list (value * value)) : option (list (string * json)) :=
         match d with
         | [] => Some []
         | (k, x) :: d' =>
             match json_key k, json_dump x, go d' with
             | Some s, Some j, Some js => Some ((s, j) :: js)
             | _, _, _ => None
             end
         end) d
  end.

(** [dict(pairs)]: a repeated key keeps its first place and its last value. *)
Definition dict_of_pairs {V} (l : list (value * V)) : dict V :=
  fold_left (fun d kv => dict_set (fst kv) (snd kv) d) l [].

(** [json.load] *)
Fixpoint json_load (j : json) : value :=
  match j with
  | JNull => VNone
  | JBool b => VBool b
  | JNum z => VInt z
  | JStr s => VStr s
  | JArr l => VList (map json_load l)
  | JObj l =>
      VDict (dict_of_pairs
               (map (fun kx => match kx with (k, x) => (VStr k, json_load x) end) l))
  end.

(** What a file of the directory holds. *)
Inductive file : Type :=
| FJson (j : json)                 (* a JSON document *)
| FPickle (v : value)              (* a pickle of plain data *)
| FPickleSummary (s : Summary.t)   (* a pickle of a [Summary] *)
| FArtifact (blob : value)         (* weights or optimizer state, in the backend's format *)
| FEmpty                           (* opened for writing, nothing dumped *)
| FPartialText.                    (* a JSON dump that stopped half-way *)

(** A checkpoint directory: its files by name ([os.path.join(dir, name)]). *)
Abbreviation directory := (gmap string file).

(** [json.load(open(path, 'r'))] *)
Definition read_json (f : file) : result value :=
  match f with
  | FJson j => Ok (json_load j)
  | FPickle _ | FPickleSummary _ | FArtifact _ => Raise UnicodeDecodeError
  | FEmpty | FPartialText => Raise JSONDecodeError
  end.

(** What [pickle.load] returns. *)
Inductive unpickled : Type :=
| UValue (v : value)
| USummary (s : Summary.t).

(** [pickle.load(open(path, 'rb'))] *)
Definition read_pickle (f : file) : result unpickled :=
  match f with
  | FPickle v => Ok (UValue v)
  | FPickleSummary s => Ok (USummary s)
  | FEmpty => Raise EOFError
  | FJson _ | FArtifact _ | FPartialText => Raise UnpicklingError
  end.

(** [type(x)] *)
Definition type_of (u : unpickled) : pytype :=
  match u with
  | UValue VNone => TNoneType
  | UValue (VBool _) => TBool
  | UValue (VInt _) => TInt
  | UValue (VStr _) => TStr
  | UValue (VList _) => TList
  | UValue (VDict _) => TDict
  | USummary _ => TSummary
  end.

(** ** Iteration and [dict.update] *)

(** The one-character strings of [s]. *)
Fixpoint chars (s : string) : list value :=
  match s with
  | EmptyString => []
  | String c s' => VStr (String c EmptyString) :: chars s'
  end.

(** [iter(v)]: lists yield their elements, strings their characters,
    dictionaries their keys; the other values are not iterable. *)
Definition py_iter (v : value) : result (list value) :=
  match v with
  | VList l => Ok l
  | VStr s => Ok (chars s)
  | VDict d => Ok (dict_keys d)
  | VNone | VBool _ | VInt _ => Raise TypeError
  end.

(** [d.update(other)] stores its items one at a time: a mapping gives its own
    items; any other iterable must yield two-element sequences, the first
    element hashable.  The items stored before a failure stay stored. *)
Fixpoint update_from_sequence {V} (store : value -> value -> V -> V)
    (elems : list value) : M V unit :=
  match elems with
  | [] => ret tt
  | e :: elems' =>
      do kv <- lift_result (py_iter e) in
      match kv with
      | [k; v] =>
          if hashable k
          then do _ <- modify (store k v) in update_from_sequence store elems'
          else raise TypeError
      | _ => raise (ValueError UpdateSequenceLength)
      end
  end.

Definition update_with {V} (store : value -> value -> V -> V) (other : value) : M V unit :=
  match other with
  | VDict d => for_each d (fun kv => modify (store (fst kv) (snd kv)))
  | _ => do elems <- lift_result (py_iter other) in update_from_sequence store elems
  end.

(** [d.update(other)] on a dictionary. *)
Definition dict_update (other : value) : M (dict value) unit :=
  update_with (fun k v d => dict_set k v d) other.

(** ** The [System] object *)

(** An attribute that is annotated with a collaborator class holds that
    collaborator, or plain data once [load_state] has merged a JSON value
    over it. *)
Inductive slot (T : Type) : Type :=
| Live (x : T)
| Data (v : value).
Arguments Live {T} x.
Arguments Data {T} v.

(** The values found in a [System]'s [__dict__]. *)
Inductive attr : Type :=
| AValue (v : value)
| AObjects (l : list pyobj)
| ANetwork (n : Network.t)
| APipeline (p : Pipeline.t)
| ASummary (s : Summary.t).

Module System.
(** The attributes in the order [__init__] assigns them; [extra] holds the
    attributes that only [__dict__.update] can add. *)
Record t : Type := mk {
  network : slot Network.t;
  pipeline : slot Pipeline.t;
  traces : slot (list pyobj);
  mode : value;
  num_devices : value;
  log_steps : value;
  total_epochs : value;
  batch_idx : value;
  max_train_steps_per_epoch : value;
  max_eval_steps_per_epoch : value;
  stop_training : value;
  summary : slot Summary.t;
  experiment_time : value;
  global_step : value;
  epoch_idx : value;
  extra : dict value
}.

Definition set_network (x : slot Network.t) (s : t) : t :=
  mk x (pipeline s) (traces s) (mode s) (num_devices s) (log_steps s) (total_epochs s) (batch_idx s) (max_train_steps_per_epoch s) (max_eval_steps_per_epoch s) (stop_training s) (summary s) (experiment_time s) (global_step s) (epoch_idx s) (extra s).
Definition set_pipeline (x : slot Pipeline.t) (s : t) : t :=
  mk (network s) x (traces s) (mode s) (num_devices s) (log_steps s) (total_epochs s) (batch_idx s) (max_train_steps_per_epoch s) (max_eval_steps_per_epoch s) (stop_training s) (summary s) (experiment_time s) (global_step s) (epoch_idx s) (extra s).
Definition set_traces (x : slot (list pyobj)) (s : t) : t :=
  mk (network s) (pipeline s) x (mode s) (num_devices s) (log_steps s) (total_epochs s) (batch_idx s) (max_train_steps_per_epoch s) (max_eval_steps_per_epoch s) (stop_training s) (summary s) (experiment_time s) (global_step s) (epoch_idx s) (extra s).
Definition set_mode (x : value) (s : t) : t :=
  mk (network s) (pipeline s) (traces s) x (num_devices s) (log_steps s) (total_epochs s) (batch_idx s) (max_train_steps_per_epoch s) (max_eval_steps_per_epoch s) (stop_training s) (summary s) (experiment_time s) (global_step s) (epoch_idx s) (extra s).
Definition set_num_devices (x : value) (s : t) : t :=
  mk (network s) (pipeline s) (traces s) (mode s) x (log_steps s) (total_epochs s) (batch_idx s) (max_train_steps_per_epoch s) (max_eval_steps_per_epoch s) (stop_training s) (summary s) (experiment_time s) (global_step s) (epoch_idx s) (extra s).
Definition set_log_steps (x : value) (s : t) : t :=
  mk (network s) (pipeline s) (traces s) (mode s) (num_devices s) x (total_epochs s) (batch_idx s) (max_train_steps_per_epoch s) (max_eval_steps_per_epoch s) (stop_training s) (summary s) (experiment_time s) (global_step s) (epoch_idx s) (extra s).
Definition set_total_epochs (x : value) (s : t) : t :=
  mk (network s) (pipeline s) (traces s) (mode s) (num_devices s) (log_steps s) x (batch_idx s) (max_train_steps_per_epoch s) (max_eval_steps_per_epoch s) (stop_training s) (summary s) (experiment_time s) (global_step s) (epoch_idx s) (extra s).
Definition set_batch_idx (x : value) (s : t) : t :=
  mk (network s) (pipeline s) (traces s) (mode s) (num_devices s) (log_steps s) (total_epochs s) x (max_train_steps_per_epoch s) (max_eval_steps_per_epoch s) (stop_training s) (summary s) (experiment_time s) (global_step s) (epoch_idx s) (extra s).
Definition set_max_train_steps_per_epoch (x : value) (s : t) : t :=
  mk (network s) (pipeline s) (traces s) (mode s) (num_devices s) (log_steps s) (total_epochs s) (batch_idx s) x (max_eval_steps_per_epoch s) (stop_training s) (summary s) (experiment_time s) (global_step s) (epoch_idx s) (extra s).
Definition set_max_eval_steps_per_epoch (x : value) (s : t) : t :=
  mk (network s) (pipeline s) (traces s) (mode s) (num_devices s) (log_steps s) (total_epochs s) (batch_idx s) (max_train_steps_per_epoch s) x (stop_training s) (summary s) (experiment_time s) (global_step s) (epoch_idx s) (extra s).
Definition set_stop_training (x : value) (s : t) : t :=
  mk (network s) (pipeline s) (traces s) (mode s) (num_devices s) (log_steps s) (total_epochs s) (batch_idx s) (max_train_steps_per_epoch s) (max_eval_steps_per_epoch s) x (summary s) (experiment_time s) (global_step s) (epoch_idx s) (extra s).
Definition set_summary (x : slot Summary.t) (s : t) : t :=
  mk (network s) (pipeline s) (traces s) (mode s) (num_devices s) (log_steps s) (total_epochs s) (batch_idx s) (max_train_steps_per_epoch s) (max_eval_steps_per_epoch s) (stop_training s) x (experiment_time s) (global_step s) (epoch_idx s) (extra s).
Definition set_experiment_time (x : value) (s : t) : t :=
  mk (network s) (pipeline s) (traces s) (mode s) (num_devices s) (log_steps s) (total_epochs s) (batch_idx s) (max_train_steps_per_epoch s) (max_eval_steps_per_epoch s) (stop_training s) (summary s) x (global_step s) (epoch_idx s) (extra s).
Definition set_global_step (x : value) (s : t) : t :=
  mk (network s) (pipeline s) (traces s) (mode s) (num_devices s) (log_steps s) (total_epochs s) (batch_idx s) (max_train_steps_per_epoch s) (max_eval_steps_per_epoch s) (stop_training s) (summary s) (experiment_time s) x (epoch_idx s) (extra s).
Definition set_epoch_idx (x : value) (s : t) : t :=
  mk (network s) (pipeline s) (traces s) (mode s) (num_devices s) (log_steps s) (total_epochs s) (batch_idx s) (max_train_steps_per_epoch s) (max_eval_steps_per_epoch s) (stop_training s) (summary s) (experiment_time s) (global_step s) x (extra s).
Definition set_extra (x : dict value) (s : t) : t :=
  mk (network s) (pipeline s) (traces s) (mode s) (num_devices s) (log_steps s) (total_epochs s) (batch_idx s) (max_train_steps_per_epoch s) (max_eval_steps_per_epoch s) (stop_training s) (summary s) (experiment_time s) (global_step s) (epoch_idx s) x.

(** [System.__init__]; [num_devices] is whatever the caller (or
    [torch.cuda.device_count()]) supplies. *)
Definition init (network : Network.t) (pipeline : Pipeline.t) (traces : list pyobj)
    (mode num_devices log_steps total_epochs : value)
    (max_train_steps_per_epoch max_eval_steps_per_epoch system_config : value) : t :=
  mk (Live network) (Live pipeline) (Live traces) mode num_devices log_steps
     total_epochs VNone max_train_steps_per_epoch max_eval_steps_per_epoch
     (VBool false) (Live (Summary.new VNone system_config)) (VStr "")
     VNone (VInt 0) [].

(** How [setattr(self, name, v)] lands in the record, for the declared
    attribute names. *)
Definition declared : list (string * (value -> t -> t)) :=
  [ ("network", fun v => set_network (Data v));
    ("pipeline", fun v => set_pipeline (Data v));
    ("traces", fun v => set_traces (Data v));
    ("mode", set_mode);
    ("num_devices", set_num_devices);
    ("log_steps", set_log_steps);
    ("total_epochs", set_total_epochs);
    ("batch_idx", set_batch_idx);
    ("max_train_steps_per_epoch", set_max_train_steps_per_epoch);
    ("max_eval_steps_per_epoch", set_max_eval_steps_per_epoch);
    ("stop_training", set_stop_training);
    ("summary", fun v => set_summary (Data v));
    ("experiment_time", set_experiment_time);
    ("global_step", set_global_step);
    ("epoch_idx", set_epoch_idx) ].

Fixpoint assoc {A} (n : string) (l : list (string * A)) : option A :=
  match l with
  | [] => None
  | (n', a) :: l' => if String.eqb n' n then Some a else assoc n l'
  end.

(** [self.__dict__[k] = v] *)
Definition setattr (k v : value) (s : t) : t :=
  match k with
  | VStr n =>
      match assoc n declared with
      | Some store => store v s
      | None => set_extra (dict_set k v (extra s)) s
      end
  | _ => set_extra (dict_set k v (extra s)) s
  end.

Definition slot_attr {T} (inj : T -> attr) (x : slot T) : attr :=
  match x with Live y => inj y | Data v => AValue v end.

(** [self.__dict__.items()] *)
Definition items (s : t) : list (value * attr) :=
  [ (VStr "network", slot_attr ANetwork (network s));
    (VStr "pipeline", slot_attr APipeline (pipeline s));
    (VStr "traces", slot_attr AObjects (traces s));
    (VStr "mode", AValue (mode s));
    (VStr "num_devices", AValue (num_devices s));
    (VStr "log_steps", AValue (log_steps s));
    (VStr "total_epochs", AValue (total_epochs s));
    (VStr "batch_idx", AValue (batch_idx s));
    (VStr "max_train_steps_per_epoch", AValue (max_train_steps_per_epoch s));
    (VStr "max_eval_steps_per_epoch", AValue (max_eval_steps_per_epoch s));
    (VStr "stop_training", AValue (stop_training s));
    (VStr "summary", slot_attr ASummary (summary s));
    (VStr "experiment_time", AValue (experiment_time s));
    (VStr "global_step", AValue (global_step s));
    (VStr "epoch_idx", AValue (epoch_idx s)) ]
  ++ map (fun kv => (fst kv, AValue (snd kv))) (extra s).

(** [self.__dict__.get(k)] *)
Definition getattr (k : value) (s : t) : option attr := dict_get k (items s).

(** The representation keeps a declared attribute in its own field: no key
    of [extra] is spelled, once written to JSON, like a declared name. *)
Definition extra_ok (s : t) : Prop :=
  forall k n, In k (dict_keys (extra s)) -> json_key k = Some n ->
              assoc n declared = None.

(** *** Counters *)

Definition _initialize_state : M t unit :=
  do _ <- modify (set_global_step VNone) in
  modify (set_epoch_idx (VInt 0)).

(** [v += 1] *)
Definition add_one (v : value) : result value :=
  match v with
  | VInt z => Ok (VInt (z + 1))
  | VBool b => Ok (VInt ((if b then 1 else 0) + 1))
  | VNone | VStr _ | VList _ | VDict _ => Raise TypeError
  end.

Definition is_none (v : value) : bool :=
  match v with VNone => true | _ => false end.

Definition update_global_step : M t unit :=
  do s <- get in
  if is_none (global_step s)
  then modify (set_global_step (VInt 1))
  else do v <- lift_result (add_one (global_step s)) in
       modify (set_global_step v).

Definition update_batch_idx : M t unit :=
  do s <- get in
  if is_none (batch_idx s)
  then modify (set_batch_idx (VInt 1))
  else do v <- lift_result (add_one (batch_idx s)) in
       modify (set_batch_idx v).

(** *** Starting a run, entering the test phase *)

(** [now] is what [datetime.datetime.now()] returns during the call. *)
Definition reset (now : datetime) (summary_name system_config : value) : M t unit :=
  do _ <- modify (set_experiment_time (VStr (strftime now))) in
  do _ <- modify (set_mode (VStr "train")) in
  do _ <- _initialize_state in
  do _ <- modify (set_batch_idx VNone) in
  do _ <- modify (set_stop_training (VBool false)) in
  modify (set_summary (Live (Summary.new summary_name system_config))).

(** [self.summary], where the code goes on to use it as a [Summary]: plain
    data has none of its attributes. *)
Definition summary_object : M t Summary.t :=
  do s <- get in
  match summary s with
  | Live sm => ret sm
  | Data _ => raise AttributeError
  end.

Definition reset_for_test (now : datetime) (summary_name : value) : M t unit :=
  do s <- get in
  do _ <- modify (set_experiment_time
                    (py_or (experiment_time s) (VStr (strftime now)))) in
  do _ <- modify (set_mode (VStr "test")) in
  do _ <- (if negb (truthy (stop_training s))
           then modify (set_epoch_idx (total_epochs s))
           else ret tt) in
  do _ <- modify (set_stop_training (VBool false)) in
  do sm <- summary_object in
  do _ <- modify (set_summary
                    (Live (Summary.set_name (py_or summary_name (Summary.name sm)) sm))) in
  do sm <- summary_object in
  modify (set_summary
            (Live (Summary.set_history (dict_pop (VStr "test") (Summary.history sm)) sm))).

(** *** Writing a metric *)

(** [d[k]] on a [defaultdict]: a missing slot is created. *)
Definition vivify {V} (k : value) (fresh : V) (d : dict V) : dict V :=
  match dict_get k d with
  | Some _ => d
  | None => dict_set k fresh d
  end.

(** Apply [f] to the slot of [k], if there is one. *)
Fixpoint dict_alter {V} (f : V -> V) (k : value) (d : dict V) : dict V :=
  match d with
  | [] => []
  | (k', v) :: d' =>
      if key_eqb k' k then (k', f v) :: d' else (k', v) :: dict_alter f k d'
  end.

(** [history[mode][key][step] = v]: the two outer lookups come first and
    create what is missing, then the store; each key is hashed when it is
    used. *)
Definition history_store (mode key step v : value) : M (dict (dict (dict value))) unit :=
  if negb (hashable mode) then raise TypeError else
  do _ <- modify (vivify mode []) in
  if negb (hashable key) then raise TypeError else
  do _ <- modify (dict_alter (vivify key []) mode) in
  if negb (hashable step) then raise TypeError else
  modify (dict_alter (dict_alter (dict_set step v) key) mode).

(** Run a method of a component on the component held by the object. *)
Definition zoom {S T A} (proj : S -> T) (put : T -> S -> S) (m : M T A) : M S A :=
  fun s => match m (proj s) with (x, r) => (put x s, r) end.

Definition write_summary (key v : value) : M t unit :=
  do s <- get in
  match summary s with
  | Live sm =>
      if Summary.bool sm
      then zoom (fun _ => sm) (fun sm' => set_summary (Live sm'))
             (zoom Summary.history Summary.set_history
                (history_store (mode s) key (py_or (global_step s) (VInt 0)) v))
      else ret tt
  | Data d => if truthy d then raise AttributeError else ret tt
  end.

(** *** Saving and restoring *)

(** [for x in xs: body(x)], where [body] mutates [x] in place. *)
Fixpoint for_each_mut {A} (body : M A unit) : M (list A) unit :=
  fun xs =>
    match xs with
    | [] => ([], Ok tt)
    | x :: xs' =>
        match body x with
        | (x', Ok _) =>
            match for_each_mut body xs' with (xs'', r) => (x' :: xs'', r) end
        | (x', Raise e) => (x' :: xs', Raise e)
        end
    end.

(** [[f(x) for x in xs]], where [f] may raise. *)
Fixpoint collect {A B} (f : A -> result B) (xs : list A) : result (list B) :=
  match xs with
  | [] => Ok []
  | x :: xs' =>
      match f x with
      | Ok y => match collect f xs' with
                | Ok ys => Ok (y :: ys)
                | Raise e => Raise e
                end
      | Raise e => Raise e
      end
  end.

(** Iterating over [self.traces]: the list of traces, or whatever plain
    data took its place. *)
Definition sequence_of (x : slot (list pyobj)) : result (list pyobj) :=
  match x with
  | Live l => Ok l
  | Data v => match py_iter v with
              | Ok l => Ok (map Plain l)
              | Raise e => Raise e
              end
  end.

Definition plain_json (o : pyobj) : option json :=
  match o with
  | Plain v => json_dump v
  | Inst _ _ => None
  end.

(** [json.dump] of an attribute; [None] stands for its [TypeError]. *)
Definition attr_json (a : attr) : option json :=
  match a with
  | AValue v => json_dump v
  | AObjects l => JArr <$> mapM plain_json l
  | ANetwork _ | APipeline _ | ASummary _ => None
  end.

(** Modelled from the spec: [is_restorable] of
    [fastestimator/util/traceability_util.py] is not part of the sources.
    "An attribute is restorable if it is JSON-serializable; any attribute
    that is not (e.g. live object references) is silently excluded."  This
    is the first component of the pair the function returns. *)
Definition is_restorable (a : attr) : bool :=
  match attr_json a with Some _ => true | None => false end.

(** [json.dump(state, fp)] for a dictionary of attributes. *)
Fixpoint state_json (state : list (value * attr)) : option (list (string * json)) :=
  match state with
  | [] => Some []
  | (k, a) :: state' =>
      match json_key k, attr_json a, state_json state' with
      | Some n, Some j, Some js => Some ((n, j) :: js)
      | _, _, _ => None
      end
  end.

Definition write (path : string) (f : file) : M directory unit :=
  modify (fun dir : directory => <[path := f]> dir).

Definition model_extensions (m : Model) : result (string * string) :=
  match model_kind m with
  | KerasModel => Ok ("h5", "pkl")
  | TorchModule => Ok ("pt", "pt")
  | OtherModel => Raise (ValueError UnknownModelType)
  end.

Definition weights_path (m : Model) (model_ext : string) : string :=
  model_name m +:+ "." +:+ model_ext.
Definition optimizer_path (m : Model) (optimizer_ext : string) : string :=
  model_name m +:+ "_opt." +:+ optimizer_ext.

Section Persistence.
(** The code of the collaborators, which [System] only calls:
    [obj.__getstate__()], [obj.__setstate__(state)], and the backend's
    [save_model(model, save_dir, save_optimizer=True)] and
    [load_model(model, weights_path, load_optimizer=True)]. *)
Variable getstate : pyobj -> result value.
Variable setstate : value -> M pyobj unit.
Variable save_model : Model -> M directory unit.
Variable load_model : string -> directory -> M Model unit.

(** [obj.__getstate__() if hasattr(obj, '__getstate__') else {}] *)
Definition getstate_or_empty (o : pyobj) : result value :=
  if hasattr_getstate o then getstate o else Ok (VDict []).

(** [with open(path, 'wb') as file: pickle.dump([...], file)]: the file
    is created before the list is computed. *)
Definition save_list (path : string) (objs : result (list pyobj)) : M directory unit :=
  do _ <- write path FEmpty in
  do objs <- lift_result objs in
  do states <- lift_result (collect getstate_or_empty objs) in
  write path (FPickle (VList states)).

(** [{key: value.__getstate__() for key, value in data.items()
      if hasattr(value, '__getstate__')}] *)
Fixpoint dataset_states (data : dict pyobj) : result (dict value) :=
  match data with
  | [] => Ok []
  | (k, o) :: data' =>
      if hasattr_getstate o
      then match getstate o with
           | Ok st => match dataset_states data' with
                      | Ok d => Ok ((k, st) :: d)
                      | Raise e => Raise e
                      end
           | Raise e => Raise e
           end
      else dataset_states data'
  end.

Definition network_of (s : t) : result Network.t :=
  match network s with Live n => Ok n | Data _ => Raise AttributeError end.
Definition pipeline_of (s : t) : result Pipeline.t :=
  match pipeline s with Live p => Ok p | Data _ => Raise AttributeError end.
Definition result_map {A B} (f : A -> B) (r : result A) : result B :=
  match r with Ok a => Ok (f a) | Raise e => Raise e end.

Definition save_state (s : t) : M directory unit :=
  (* the high-level info *)
  let state := List.filter (fun kv => is_restorable (snd kv)) (items s) in
  do _ <- write "system.json" FEmpty in
  do _ <- match state_json state with
          | Some j => write "system.json" (FJson (JObj j))
          | None => do _ <- write "system.json" FPartialText in raise TypeError
          end in
  (* the models / optimizer states *)
  do net <- lift_result (network_of s) in
  do _ <- for_each (Network.models net) save_model in
  (* the Summary object *)
  do _ <- write "summary.pkl"
            match summary s with
            | Live sm => FPickleSummary sm
            | Data v => FPickle v
            end in
  (* the Traces *)
  do _ <- save_list "traces.pkl" (sequence_of (traces s)) in
  (* the TensorOps *)
  do _ <- save_list "tops.pkl" (result_map Network.ops (network_of s)) in
  (* the NumpyOps *)
  do _ <- save_list "nops.pkl" (result_map Pipeline.ops (pipeline_of s)) in
  (* the Datasets *)
  do _ <- write "ds.pkl" FEmpty in
  do pipe <- lift_result (pipeline_of s) in
  do states <- lift_result (dataset_states (Pipeline.data pipe)) in
  write "ds.pkl" (FPickle (VDict states)).

Definition _load_model (base_path : directory) : M Model unit :=
  do model <- get in
  do exts <- lift_result (model_extensions model) in
  let weights_path := weights_path model (fst exts) in
  match base_path !! weights_path with
  | None => raise (FileNotFoundError (ModelWeightsFile weights_path))
  | Some _ =>
      let optimizer_path := optimizer_path model (snd exts) in
      match base_path !! optimizer_path with
      | None => raise (FileNotFoundError (ModelOptimizerFile optimizer_path))
      | Some _ => load_model weights_path base_path
      end
  end.

(** The body of both restore loops. *)
Definition restore (state : value) : M pyobj unit :=
  fun obj =>
    if hasattr_setstate obj then setstate state obj
    else if hasattr_dict obj then
      match obj with
      | Inst c fields =>
          match dict_update state fields with
          | (fields', r) => (Inst c fields', r)
          end
      | Plain _ => (obj, Ok tt)
      end
    else (obj, Ok tt).

(** [for obj, state in zip(in_memory_objects, states)] *)
Fixpoint restore_zip (states : list value) : M (list pyobj) unit :=
  fun objs =>
    match objs, states with
    | obj :: objs', state :: states' =>
        match restore state obj with
        | (obj', Ok _) =>
            match restore_zip states' objs' with
            | (objs'', r) => (obj' :: objs'', r)
            end
        | (obj', Raise e) => (obj' :: objs', Raise e)
        end
    | _, _ => (objs, Ok tt)
    end.

(** [in_memory_objects] is the live list, or the plain data that took the
    place of [self.traces]; the elements of plain data answer to no
    hook, so the loop leaves them alone. *)
Definition _load_list (state_path : string) (dir : directory) : M (slot (list pyobj)) unit :=
  match dir !! state_path with
  | None => raise (FileNotFoundError (SummaryFile state_path))
  | Some f =>
      do states <- lift_result (read_pickle f) in
      match states with
      | UValue (VList states) =>
          do in_memory_objects <- get in
          match in_memory_objects with
          | Live objs =>
              if negb (length states =? length objs)%nat
              then raise (ValueError (WrongCount state_path (length objs) (length states)))
              else zoom (fun _ => objs) (fun objs' _ => Live objs') (restore_zip states)
          | Data v =>
              do elems <- lift_result (py_iter v) in
              if negb (length states =? length elems)%nat
              then raise (ValueError (WrongCount state_path (length elems) (length states)))
              else ret tt
          end
      | _ => raise (ValueError (ExpectedList state_path (type_of states)))
      end
  end.

(** Run a method on the object stored under [k]. *)
Definition at_key {V A} (k : value) (m : M V A) : M (dict V) A :=
  fun d =>
    match dict_get k d with
    | Some o => match m o with (o', r) => (dict_set k o' d, r) end
    | None => (d, Raise KeyError)
    end.

Definition _load_dict (state_path : string) (dir : directory) : M (dict pyobj) unit :=
  match dir !! state_path with
  | None => raise (FileNotFoundError (SummaryFile state_path))
  | Some f =>
      do states <- lift_result (read_pickle f) in
      match states with
      | UValue (VDict states) =>
          do in_memory_objects <- get in
          let unexpected :=
            List.filter (fun k => negb (dict_mem k in_memory_objects)) (dict_keys states) in
          match unexpected with
          | _ :: _ => raise (ValueError (UnexpectedKeys state_path unexpected))
          | [] => for_each states (fun ks => at_key (fst ks) (restore (snd ks)))
          end
      | _ => raise (ValueError (ExpectedDict state_path (type_of states)))
      end
  end.

(** The steps of [load_state], in the order of the source. *)

Definition load_attributes (load_dir : directory) : M t unit :=
  match load_dir !! "system.json" with
  | None => raise (FileNotFoundError (SystemSummaryFile "system.json"))
  | Some f =>
      do state <- lift_result (read_json f) in
      update_with setattr state
  end.

Definition load_models (load_dir : directory) : M t unit :=
  do s <- get in
  do net <- lift_result (network_of s) in
  zoom (fun _ => Network.models net)
       (fun ms => set_network (Live (Network.mk ms (Network.ops net))))
       (for_each_mut (_load_model load_dir)).

Definition load_summary (load_dir : directory) : M t unit :=
  match load_dir !! "summary.pkl" with
  | None => raise (FileNotFoundError (SummaryFile "summary.pkl"))
  | Some f =>
      do _ <- summary_object in
      do loaded <- lift_result (read_pickle f) in
      match loaded with
      | USummary sm => modify (set_summary (Live sm))
      | UValue _ => raise AttributeError
      end
  end.

Definition load_traces (load_dir : directory) : M t unit :=
  zoom traces set_traces (_load_list "traces.pkl" load_dir).

Definition load_tensor_ops (load_dir : directory) : M t unit :=
  do s <- get in
  do net <- lift_result (network_of s) in
  zoom (fun _ => Live (Network.ops net))
       (fun x => match x with
                 | Live ops => set_network (Live (Network.mk (Network.models net) ops))
                 | Data _ => fun s => s
                 end)
       (_load_list "tops.pkl" load_dir).

Definition load_numpy_ops (load_dir : directory) : M t unit :=
  do s <- get in
  do pipe <- lift_result (pipeline_of s) in
  zoom (fun _ => Live (Pipeline.ops pipe))
       (fun x => match x with
                 | Live ops => set_pipeline (Live (Pipeline.mk (Pipeline.data pipe) ops))
                 | Data _ => fun s => s
                 end)
       (_load_list "nops.pkl" load_dir).

Definition load_datasets (load_dir : directory) : M t unit :=
  do s <- get in
  do pipe <- lift_result (pipeline_of s) in
  zoom (fun _ => Pipeline.data pipe)
       (fun data => set_pipeline (Live (Pipeline.mk data (Pipeline.ops pipe))))
       (_load_dict "ds.pkl" load_dir).

Definition load_state (load_dir : directory) : M t unit :=
  do _ <- load_attributes load_dir in
  do _ <- load_models load_dir in
  do _ <- load_summary load_dir in
  do _ <- load_traces load_dir in
  do _ <- load_tensor_ops load_dir in
  do _ <- load_numpy_ops load_dir in
  load_datasets load_dir.
End Persistence.
End System.

(** * Properties *)

Import System.

(** Normalise record updates and projections, and nothing else. *)
Ltac record_simpl :=
  cbv beta iota delta
    [set_network set_pipeline set_traces set_mode set_num_devices set_log_steps set_total_epochs set_batch_idx set_max_train_steps_per_epoch set_max_eval_steps_per_epoch set_stop_training set_summary set_experiment_time set_global_step set_epoch_idx set_extra network pipeline traces mode num_devices log_steps total_epochs batch_idx max_train_steps_per_epoch max_eval_steps_per_epoch stop_training summary experiment_time global_step epoch_idx extra
     Summary.set_name Summary.set_history Summary.name Summary.system_config
     Summary.history fst snd].

(** ** The driving loop: [k] calls in a row *)

Fixpoint times {S} (k : nat) (m : M S unit) : M S unit :=
  match k with
  | O => ret tt
  | S k' => do _ <- m in times k' m
  end.

(** Steps run one after the other, the way the statements of a method body
    are: the first one that raises ends the run. *)
Definition run_steps {S} (steps : list (M S unit)) : M S unit :=
  for_each steps (fun step => step).

(** No two slots of a dictionary answer to the same key. *)
Fixpoint unique_keys {V} (d : dict V) : Prop :=
  match d with
  | [] => True
  | (k, _) :: d' => dict_get k d' = None /\ unique_keys d'
  end.

(** What [json.load] finds under the name [n] in the file that
    [json.dump] wrote for the restorable ones among [its]: the last such
    item spelled [n]. *)
Fixpoint last_restorable (n : string) (its : list (value * attr)) : option value :=
  match its with
  | [] => None
  | (k, a) :: rest =>
      match last_restorable n rest with
      | Some v => Some v
      | None =>
          match json_key k with
          | Some n' => if String.eqb n' n then json_load <$> attr_json a else None
          | None => None
          end
      end
  end.

(** [s'] shows the same progress as [s]: mode, counters, metric log. *)
Definition same_progress (s s' : t) : Prop :=
  mode s' = mode s /\ batch_idx s' = batch_idx s /\
  global_step s' = global_step s /\ epoch_idx s' = epoch_idx s /\
  summary s' = summary s.

(** [self.summary.history[mode][key][step]], read off a [System]; nothing
    when the summary is not a [Summary] or has no such entry. *)
Definition metric (mode key step : value) (s : t) : option value :=
  match summary s with
  | Live sm => Summary.lookup mode key step (Summary.history sm)
  | Data _ => None
  end.

(** The attributes of a [System] that are not collaborators: the ones the
    constructor and [_initialize_state] set to plain values, and whatever
    else was put in [__dict__]. *)
Definition plain_attributes (s : t) : list value * dict value :=
  ([mode s; num_devices s; log_steps s; total_epochs s; batch_idx s;
    max_train_steps_per_epoch s; max_eval_steps_per_epoch s; stop_training s;
    experiment_time s; global_step s; epoch_idx s], extra s).

(** [k] is one of the names [network], [pipeline], [traces], [summary]. *)
Definition collaborator_name (k : value) : bool :=
  existsb (fun n => key_eqb (VStr n) k) ["network"; "pipeline"; "traces"; "summary"].

(** The loop of [_load_dict]. *)
Definition restore_loop (setstate : value -> M pyobj unit) (states : dict value)
    : M (dict pyobj) unit :=
  for_each states (fun ks => at_key (fst ks) (restore setstate (snd ks))).

(** The statements of [load_state], top to bottom. *)
Definition load_steps (setstate : value -> M pyobj unit)
    (load_model : string -> directory -> M Model unit)
    (load_dir : directory) : list (M t unit) :=
  [ load_attributes load_dir;
    load_models load_model load_dir;
    load_summary load_dir;
    load_traces setstate load_dir;
    load_tensor_ops setstate load_dir;
    load_numpy_ops setstate load_dir;
    load_datasets setstate load_dir ].

(** ** Collaborators for the examples *)

(** A backend and two kinds of stateful object, simple enough to run: an
    object with the [__getstate__]/[__setstate__] pair hands out and takes
    back its field bag; the backend keeps the weights and the optimizer
    state of a model in the two files named after it. *)
Module Demo.
Definition stateful : objclass :=
  {| cls_name := "EarlyStopping"; has_getstate := true; has_setstate := true;
     has_dict := true |}.
Definition bag : objclass :=
  {| cls_name := "Minmax"; has_getstate := false; has_setstate := false;
     has_dict := true |}.

Definition getstate (o : pyobj) : result value :=
  match o with
  | Inst _ fields => Ok (VDict fields)
  | Plain _ => Raise AttributeError
  end.

Definition setstate (state : value) : M pyobj unit :=
  fun o =>
    match o with
    | Inst c fields =>
        match dict_update state fields with (fields', r) => (Inst c fields', r) end
    | Plain _ => (o, Raise AttributeError)
    end.

Definition save_model (m : Model) : M directory unit :=
  match model_extensions m with
  | Ok exts =>
      do _ <- write (weights_path m (fst exts)) (FArtifact (weights m)) in
      write (optimizer_path m (snd exts)) (FArtifact (optimizer m))
  | Raise e => raise e
  end.

Definition load_model (weights_file : string) (dir : directory) : M Model unit :=
  fun m =>
    match dir !! weights_file, model_extensions m with
    | Some (FArtifact w), Ok exts =>
        match dir !! optimizer_path m (snd exts) with
        | Some (FArtifact o) =>
            ({| model_kind := model_kind m; model_name := model_name m;
                weights := w; optimizer := o |}, Ok tt)
        | _ => (m, Raise (ExternalError 2))
        end
    | _, _ => (m, Raise (ExternalError 1))
    end.

Definition model (w o : value) : Model :=
  {| model_kind := TorchModule; model_name := "lenet"; weights := w; optimizer := o |}.
Definition trace (best : Z) : pyobj := Inst stateful [(VStr "best", VInt best)].
Definition op (p : Z) : pyobj := Inst bag [(VStr "prob", VInt p)].
Definition dataset (index : Z) : pyobj := Inst stateful [(VStr "index", VInt index)].

Definition network (w : Z) : Network.t :=
  Network.mk [model (VList [VInt w]) (VDict [(VStr "lr", VInt w)])] [op w].
Definition pipeline (i : Z) : Pipeline.t :=
  Pipeline.mk [(VStr "train", dataset i); (VStr "eval", Plain VNone)] [op i].

(** [System(network, pipeline, traces, total_epochs=5)] around collaborators
    in the state [x]. *)
Definition system (x : Z) : t :=
  init (network x) (pipeline x) [trace x] VNone (VInt 1) (VInt 100) (VInt 5)
       VNone VNone VNone.

Definition clock1 : datetime :=
  {| year := 2020; month := 1; day := 2; hour := 3; minute := 4; second := 5 |}.
Definition clock2 : datetime :=
  {| year := 2020; month := 1; day := 2; hour := 3; minute := 4; second := 59 |}.

(** [reset("exp1", None)], three steps, one metric. *)
Definition trained : t :=
  fst ((do _ <- reset clock1 (VStr "exp1") VNone in
        do _ <- times 3 update_global_step in
        write_summary (VStr "accuracy") (VInt 9)) (system 7)).

(** The directory [save_state] leaves for [trained]. *)
Definition checkpoint : directory :=
  fst (save_state getstate save_model trained ∅).

(** A run that an early-stopping trace ended in epoch 3 of 5. *)
Definition stopped_early : t :=
  set_stop_training (VBool true) (set_epoch_idx (VInt 3) trained).

(** Checkpoints that lost a file, or whose dataset blob names a dataset
    the pipeline does not have. *)
Definition checkpoint_without_summary : directory :=
  delete "summary.pkl" checkpoint.
Definition checkpoint_without_optimizer : directory :=
  delete "lenet_opt.pt" checkpoint.

(** A checkpoint whose attribute file names the traces. *)
Definition checkpoint_naming_traces : directory :=
  <["system.json" := FJson (JObj [("traces", JArr [JNull]); ("note", JStr "x")])]>
    checkpoint.

(** A [__getstate__] that cannot hand out an object holding a lock, and a
    [System] one of whose traces holds one. *)
Definition getstate_unlocked (o : pyobj) : result value :=
  match o with
  | Inst _ fields =>
      if dict_mem (VStr "lock") fields then Raise TypeError else Ok (VDict fields)
  | Plain _ => Raise AttributeError
  end.
Definition locked_trace : pyobj := Inst stateful [(VStr "lock", VNone)].
Definition system_with_lock : t :=
  init (network 7) (pipeline 7) [trace 7; locked_trace] VNone (VInt 1) (VInt 100)
       (VInt 5) VNone VNone VNone.
End Demo.

(** ** Counters *)

Lemma times_update_global_step (k : nat) (z : Z) (s : t) :
  global_step s = VInt z ->
  times k update_global_step s = (set_global_step (VInt (z + Z.of_nat k)) s, Ok tt).
Proof.
  revert z s. induction k as [|k IH]; intros z s Hz.
  - cbn. rewrite Z.add_0_r, <- Hz. now destruct s.
  - replace (z + Z.of_nat (S k)) with (z + 1 + Z.of_nat k) by lia.
    cbn [times]. unfold bind at 1, update_global_step at 1.
    unfold bind, get, lift_result, modify. rewrite Hz. cbn [is_none add_one].
    rewrite (IH (z + 1)) by reflexivity.
    now destruct s.
Qed.

Lemma times_update_batch_idx (k : nat) (z : Z) (s : t) :
  batch_idx s = VInt z ->
  times k update_batch_idx s = (set_batch_idx (VInt (z + Z.of_nat k)) s, Ok tt).
Proof.
  revert z s. induction k as [|k IH]; intros z s Hz.
  - cbn. rewrite Z.add_0_r, <- Hz. now destruct s.
  - replace (z + Z.of_nat (S k)) with (z + 1 + Z.of_nat k) by lia.
    cbn [times]. unfold bind at 1, update_batch_idx at 1.
    unfold bind, get, lift_result, modify. rewrite Hz. cbn [is_none add_one].
    rewrite (IH (z + 1)) by reflexivity.
    now destruct s.
Qed.

Lemma reset_unfold (now : datetime) (summary_name system_config : value) (s : t) :
  reset now summary_name system_config s =
  (mk (network s) (pipeline s) (traces s) (VStr "train") (num_devices s)
      (log_steps s) (total_epochs s) VNone (max_train_steps_per_epoch s)
      (max_eval_steps_per_epoch s) (VBool false)
      (Live (Summary.new summary_name system_config)) (VStr (strftime now))
      VNone (VInt 0) (extra s),
   Ok tt).
Proof. now destruct s. Qed.

Lemma times_update_global_step_none (k : nat) (s : t) :
  global_step s = VNone ->
  times (S k) update_global_step s
  = (set_global_step (VInt (Z.of_nat (S k))) s, Ok tt).
Proof.
  intros Hg. replace (Z.of_nat (S k)) with (1 + Z.of_nat k) by lia.
  cbn [times]. unfold bind at 1, update_global_step at 1.
  unfold bind, get, modify. rewrite Hg. cbn [is_none].
  rewrite (times_update_global_step k 1) by reflexivity.
  now destruct s.
Qed.

Lemma times_update_batch_idx_none (k : nat) (s : t) :
  batch_idx s = VNone ->
  times (S k) update_batch_idx s
  = (set_batch_idx (VInt (Z.of_nat (S k))) s, Ok tt).
Proof.
  intros Hb. replace (Z.of_nat (S k)) with (1 + Z.of_nat k) by lia.
  cbn [times]. unfold bind at 1, update_batch_idx at 1.
  unfold bind, get, modify. rewrite Hb. cbn [is_none].
  rewrite (times_update_batch_idx k 1) by reflexivity.
  now destruct s.
Qed.

(** C3.  After [reset], whose counters are [None], the [k]-th call of
    [update_global_step] in a row returns normally and leaves [global_step]
    at exactly [k], for every [1 <= k <= n] and every [n >= 1]: the values
    seen are 1, 2, 3, ... without gap or repeat.  The same holds for
    [batch_idx] under [update_batch_idx].  Nothing else changes. *)
Theorem update_counters_count_from_one
    (now : datetime) (summary_name system_config : value) (s0 : t) (n k : nat) :
  (1 <= n)%nat -> (1 <= k <= n)%nat ->
  let s := fst (reset now summary_name system_config s0) in
  global_step s = VNone /\ batch_idx s = VNone /\
  times k update_global_step s = (set_global_step (VInt (Z.of_nat k)) s, Ok tt) /\
  times k update_batch_idx s = (set_batch_idx (VInt (Z.of_nat k)) s, Ok tt).
Proof.
  intros _ [Hk _] s.
  assert (Hg : global_step s = VNone) by (subst s; now rewrite reset_unfold).
  assert (Hb : batch_idx s = VNone) by (subst s; now rewrite reset_unfold).
  clearbody s.
  destruct k as [|k]; [lia|].
  repeat split; try assumption.
  - now apply times_update_global_step_none.
  - now apply times_update_batch_idx_none.
Qed.

(** ** Entering the test phase *)

Arguments py_or : simpl never.
Arguments strftime : simpl never.
Arguments dict_pop : simpl never.

Lemma append_empty (a b : string) : a +:+ b = "" -> b = "".
Proof. destruct a; [trivial | discriminate]. Qed.

(** A timestamp is never the empty string. *)
Lemma strftime_truthy (now : datetime) : truthy (VStr (strftime now)) = true.
Proof.
  unfold truthy. apply negb_true_iff, String.eqb_neq. unfold strftime.
  intros H. do 3 apply append_empty in H. discriminate.
Qed.

Lemma py_or_idem (a b c : value) :
  truthy b = true -> py_or (py_or a b) c = py_or a b.
Proof.
  intros Hb. unfold py_or. destruct (truthy a) eqn:Ha.
  - now rewrite Ha.
  - now rewrite Hb.
Qed.

Lemma py_or_absorb (a b : value) : py_or a (py_or a b) = py_or a b.
Proof. unfold py_or. destruct (truthy a) eqn:Ha; [now rewrite ?Ha | reflexivity]. Qed.

Lemma dict_pop_idem {V} (k : value) (d : dict V) :
  dict_pop k (dict_pop k d) = dict_pop k d.
Proof.
  unfold dict_pop. induction d as [|[k' v] d IH]; [reflexivity|].
  cbn. destruct (key_eqb k' k) eqn:E; cbn; [exact IH|].
  rewrite E. cbn. now rewrite IH.
Qed.

(** What one call of [reset_for_test] does, attribute by attribute. *)
Lemma reset_for_test_unfold (now : datetime) (summary_name : value) (s : t) :
  reset_for_test now summary_name s =
  let s1 :=
    mk (network s) (pipeline s) (traces s) (VStr "test") (num_devices s)
       (log_steps s) (total_epochs s) (batch_idx s)
       (max_train_steps_per_epoch s) (max_eval_steps_per_epoch s) (VBool false)
       (summary s) (py_or (experiment_time s) (VStr (strftime now)))
       (global_step s)
       (if truthy (stop_training s) then epoch_idx s else total_epochs s)
       (extra s) in
  match summary s with
  | Live sm =>
      (set_summary
         (Live (Summary.mk (py_or summary_name (Summary.name sm))
                           (Summary.system_config sm)
                           (dict_pop (VStr "test") (Summary.history sm)))) s1,
       Ok tt)
  | Data _ => (s1, Raise AttributeError)
  end.
Proof.
  destruct s as [net pipe tr md nd ls te bi mt me st sm et gs ei ex].
  unfold reset_for_test, summary_object, bind, get, modify, ret, raise.
  destruct sm as [sm|d]; destruct (truthy st) eqn:Hst;
    record_simpl; rewrite Hst; reflexivity.
Qed.

(** C2, as the code has it.  Calling [reset_for_test] a second time (same
    experiment name, a later clock) changes nothing and ends the way the
    first call ended, provided the stop flag was clear before the first call,
    or [epoch_idx] already was [total_epochs]. *)
Theorem reset_for_test_twice
    (now1 now2 : datetime) (summary_name : value) (s : t) :
  truthy (stop_training s) = false \/ epoch_idx s = total_epochs s ->
  reset_for_test now2 summary_name (fst (reset_for_test now1 summary_name s))
  = reset_for_test now1 summary_name s.
Proof.
  intros Hstop.
  rewrite (reset_for_test_unfold now1), (reset_for_test_unfold now2).
  destruct s as [net pipe tr md nd ls te bi mt me st sm et gs ei ex].
  simpl in Hstop.
  assert (Hei : (if truthy st then ei else te) = te).
  { destruct (truthy st); [|reflexivity]. destruct Hstop; [discriminate | assumption]. }
  destruct sm as [sm|d]; simpl; rewrite Hei.
  - rewrite py_or_idem by apply strftime_truthy.
    now rewrite py_or_absorb, dict_pop_idem.
  - now rewrite py_or_idem by apply strftime_truthy.
Qed.

(** ** Dictionaries *)

Lemma key_eqb_refl (k : value) : hashable k = true -> key_eqb k k = true.
Proof.
  destruct k as [|b|z|x|l|d]; cbn; try discriminate; intros _.
  - reflexivity.
  - now destruct b.
  - apply Z.eqb_refl.
  - apply String.eqb_refl.
Qed.

Lemma dict_get_set_same {V} (k : value) (v : V) (d : dict V) :
  hashable k = true -> dict_get k (dict_set k v d) = Some v.
Proof.
  intros Hk. induction d as [|[k' v'] d IH]; cbn.
  - now rewrite key_eqb_refl.
  - destruct (key_eqb k' k) eqn:E; cbn; rewrite E; [reflexivity | exact IH].
Qed.

Lemma dict_get_alter_same {V} (f : V -> V) (k : value) (d : dict V) :
  dict_get k (dict_alter f k d) = f <$> dict_get k d.
Proof.
  induction d as [|[k' v'] d IH]; cbn; [reflexivity|].
  destruct (key_eqb k' k) eqn:E; cbn; rewrite E; [reflexivity | exact IH].
Qed.

Lemma dict_get_vivify_same {V} (k : value) (fresh : V) (d : dict V) :
  hashable k = true -> is_Some (dict_get k (vivify k fresh d)).
Proof.
  intros Hk. unfold vivify. destruct (dict_get k d) eqn:E.
  - rewrite E. eauto.
  - rewrite dict_get_set_same by assumption. eauto.
Qed.

(** ** Writing a metric *)

Lemma history_store_lookup (mode key step v : value) (h : dict (dict (dict value))) :
  hashable mode = true -> hashable key = true -> hashable step = true ->
  exists h', history_store mode key step v h = (h', Ok tt) /\
             Summary.lookup mode key step h' = Some v.
Proof.
  intros Hm Hk Hs. unfold history_store, bind, modify, raise.
  rewrite Hm, Hk, Hs. cbn [negb]. eexists. split; [reflexivity|].
  unfold Summary.lookup.
  rewrite dict_get_alter_same, dict_get_alter_same. unfold dict in *.
  match goal with
  | |- context [dict_get mode (vivify mode ?x h)] =>
      destruct (dict_get_vivify_same mode x h Hm) as [by_key ->]
  end.
  cbn [fmap option_fmap option_map].
  rewrite dict_get_alter_same.
  match goal with
  | |- context [dict_get key (vivify key ?x by_key)] =>
      destruct (dict_get_vivify_same key x by_key Hk) as [by_step ->]
  end.
  cbn [fmap option_fmap option_map].
  now apply dict_get_set_same.
Qed.

(** C9.  With a named experiment ([bool(self.summary)] true),
    [write_summary(key, value)] returns normally, touches nothing but the
    history of the summary, and afterwards
    [history[mode][key][global_step or 0]] is [value]; the step key is 0 when
    [global_step] is [None].  Without a named experiment the call returns
    normally and leaves the whole [System], metric log included, as it was. *)
Theorem write_summary_records (key v : value) (s : t) (sm : Summary.t) :
  summary s = Live sm ->
  (Summary.bool sm = true ->
   hashable (mode s) = true -> hashable key = true -> hashable (global_step s) = true ->
   exists h',
     write_summary key v s
     = (set_summary (Live (Summary.set_history h' sm)) s, Ok tt) /\
     Summary.lookup (mode s) key (py_or (global_step s) (VInt 0)) h' = Some v /\
     (global_step s = VNone -> Summary.lookup (mode s) key (VInt 0) h' = Some v)) /\
  (Summary.bool sm = false -> write_summary key v s = (s, Ok tt)).
Proof.
  intros Hsm. split.
  - intros Hb Hm Hk Hg.
    assert (Hstep : hashable (py_or (global_step s) (VInt 0)) = true).
    { unfold py_or. now destruct (truthy (global_step s)). }
    destruct (history_store_lookup (mode s) key (py_or (global_step s) (VInt 0)) v
                (Summary.history sm) Hm Hk Hstep) as (h' & Hrun & Hget).
    exists h'. repeat split.
    + unfold write_summary, bind, get, zoom. rewrite Hsm, Hb, Hrun. reflexivity.
    + exact Hget.
    + intros Hnone. now rewrite Hnone in Hget.
  - intros Hb. unfold write_summary, bind, get, ret. now rewrite Hsm, Hb.
Qed.

(** ** Restoring one model *)

(** C7.  [_load_model] first looks at the type of the model: a model that is
    neither a Keras model nor a Torch module makes it raise the "unknown
    model type" [ValueError].  For a supported model it then asks for the
    weights file, raising [FileNotFoundError] for it when it is absent, then
    for the optimizer file, raising [FileNotFoundError] for that one when it
    is absent.  In these three cases the model is left as it was and the
    outcome does not depend on the backend.  Only when both files are there
    is the backend's [load_model] called, on the weights path, and its
    outcome is the outcome of [_load_model]. *)
Theorem load_model_checks
    (load_model : string -> directory -> M Model unit)
    (base_path : directory) (m : Model) :
  (model_kind m = OtherModel ->
   _load_model load_model base_path m = (m, Raise (ValueError UnknownModelType))) /\
  (forall model_ext optimizer_ext,
     model_extensions m = Ok (model_ext, optimizer_ext) ->
     (base_path !! weights_path m model_ext = None ->
      _load_model load_model base_path m
      = (m, Raise (FileNotFoundError (ModelWeightsFile (weights_path m model_ext))))) /\
     (is_Some (base_path !! weights_path m model_ext) ->
      base_path !! optimizer_path m optimizer_ext = None ->
      _load_model load_model base_path m
      = (m, Raise (FileNotFoundError (ModelOptimizerFile (optimizer_path m optimizer_ext))))) /\
     (is_Some (base_path !! weights_path m model_ext) ->
      is_Some (base_path !! optimizer_path m optimizer_ext) ->
      _load_model load_model base_path m
      = load_model (weights_path m model_ext) base_path m)) /\
  (model_kind m = KerasModel -> model_extensions m = Ok ("h5", "pkl")) /\
  (model_kind m = TorchModule -> model_extensions m = Ok ("pt", "pt")).
Proof.
  unfold _load_model, bind, get, lift_result, raise, model_extensions.
  repeat split.
  - intros ->. reflexivity.
  - intros Hw. destruct (model_kind m); inversion H; subst; cbn [fst snd];
      now rewrite Hw.
  - intros [fw Hw] Ho. destruct (model_kind m); inversion H; subst; cbn [fst snd];
      now rewrite Hw, Ho.
  - intros [fw Hw] [fo Ho]. destruct (model_kind m); inversion H; subst; cbn [fst snd];
      now rewrite Hw, Ho.
  - now intros ->.
  - now intros ->.
Qed.

(** ** Restoring a list of objects *)


(** ** The order of the restore steps *)

Lemma run_steps_app {S} (pre post : list (M S unit)) (s : S) :
  run_steps (pre ++ post)%list s =
  match run_steps pre s with
  | (s1, Ok _) => run_steps post s1
  | (s1, Raise e) => (s1, Raise e)
  end.
Proof.
  revert s. induction pre as [|step pre IH]; intros s; [reflexivity|].
  cbn. unfold bind. destruct (step s) as [s1 [[]|e]]; [apply IH | reflexivity].
Qed.

Lemma run_steps_fail {S} (pre post : list (M S unit)) (step : M S unit)
    (s s1 s2 : S) (e : exn) :
  run_steps pre s = (s1, Ok tt) -> step s1 = (s2, Raise e) ->
  run_steps (pre ++ step :: post)%list s = (s2, Raise e).
Proof.
  intros Hpre Hstep. rewrite run_steps_app, Hpre. cbn. unfold bind. now rewrite Hstep.
Qed.



Lemma load_state_run_steps (setstate : value -> M pyobj unit)
    (load_model : string -> directory -> M Model unit)
    (load_dir : directory) (s : t) :
  load_state setstate load_model load_dir s
  = run_steps (load_steps setstate load_model load_dir) s.
Proof.
  unfold load_state, load_steps, run_steps. cbn [for_each]. unfold bind.
  repeat match goal with
         | |- context [match ?m ?x with (_, _) => _ end] =>
             lazymatch m with
             | ret => fail
             | _ => destruct (m x) as [? [[]|?]]; try reflexivity
             end
         end.
Qed.


(** ** A blob whose length differs from the live sequence *)



(** ** Keys *)

Lemma key_eqb_sym (a b : value) : key_eqb a b = key_eqb b a.
Proof.
  destruct a as [|x|x|x|x|x], b as [|y|y|y|y|y]; cbn; try reflexivity.
  - now destruct x, y.
  - apply Z.eqb_sym.
  - apply Z.eqb_sym.
  - apply Z.eqb_sym.
  - apply String.eqb_sym.
Qed.

Lemma key_eqb_trans (a b c : value) :
  key_eqb a b = true -> key_eqb b c = true -> key_eqb a c = true.
Proof.
  destruct a as [|x|x|x|x|x], b as [|y|y|y|y|y], c as [|z|z|z|z|z]; cbn;
    try discriminate; try reflexivity;
    rewrite ?Z.eqb_eq, ?String.eqb_eq, ?Bool.eqb_true_iff;
    try (intros; subst; reflexivity);
    try (destruct x; destruct y; intros; subst; (reflexivity || discriminate || lia));
    try (destruct y; destruct z; intros; subst; (reflexivity || discriminate || lia));
    try (destruct x; destruct z; intros; subst; (reflexivity || discriminate || lia)).
Qed.

Lemma dict_get_set_other {V} (k k' : value) (v : V) (d : dict V) :
  key_eqb k' k = false -> dict_get k (dict_set k' v d) = dict_get k d.
Proof.
  intros Hne. induction d as [|[k0 v0] d IH]; cbn.
  - now rewrite Hne.
  - destruct (key_eqb k0 k') eqn:E0; cbn.
    + destruct (key_eqb k0 k) eqn:E1; [|reflexivity].
      rewrite key_eqb_sym in E0.
      now rewrite (key_eqb_trans _ _ _ E0 E1) in Hne.
    + destruct (key_eqb k0 k); [reflexivity | exact IH].
Qed.

Lemma dict_mem_set {V} (k k' : value) (v : V) (d : dict V) :
  dict_mem k d = true -> dict_mem k (dict_set k' v d) = true.
Proof.
  unfold dict_mem. induction d as [|[k0 v0] d IH]; cbn; [discriminate|].
  destruct (key_eqb k0 k') eqn:E0; cbn; destruct (key_eqb k0 k); auto.
Qed.

Lemma dict_get_none {V} (k : value) (d : dict V) :
  dict_get k d = None <-> forall k', In k' (dict_keys d) -> key_eqb k' k = false.
Proof.
  induction d as [|[k0 v0] d IH]; cbn.
  - split; [intros _ k' [] | reflexivity].
  - destruct (key_eqb k0 k) eqn:E.
    + split; [discriminate|]. intros H. specialize (H k0 (or_introl eq_refl)). congruence.
    + rewrite IH. split.
      * intros H k' [<-|Hin]; [exact E | now apply H].
      * intros H k' Hin. apply H. now right.
Qed.

(** ** Restoring the datasets *)


Lemma restore_loop_ok (setstate : value -> M pyobj unit)
    (states : dict value) (live : dict pyobj) :
  (forall k, In k (dict_keys states) -> dict_mem k live = true) ->
  (forall k st o, In (k, st) states -> snd (restore setstate st o) = Ok tt) ->
  snd (restore_loop setstate states live) = Ok tt.
Proof.
  revert live. induction states as [|[k' st] states IH]; intros live Hin Hok; [reflexivity|].
  unfold restore_loop. cbn [for_each]. unfold bind, at_key at 1. cbn [fst snd].
  pose proof (Hin k' (or_introl eq_refl)) as Hk'. unfold dict_mem in Hk'.
  destruct (dict_get k' live) as [o|]; [|discriminate].
  pose proof (Hok k' st o (or_introl eq_refl)) as Hr.
  destruct (restore setstate st o) as [o' r]. cbn in Hr. subst r.
  fold (restore_loop setstate states). apply IH.
  - intros k Hk. apply dict_mem_set. apply (Hin k). now right.
  - intros k st' o0 Hk. apply (Hok k st' o0). now right.
Qed.

Lemma unexpected_nil (states : dict value) (live : dict pyobj) :
  List.filter (fun k => negb (dict_mem k live)) (dict_keys states) = [] <->
  forall k, In k (dict_keys states) -> dict_mem k live = true.
Proof.
  induction (dict_keys states) as [|k0 ks IH]; cbn.
  - split; [intros _ k [] | reflexivity].
  - destruct (dict_mem k0 live) eqn:E; cbn.
    + rewrite IH. split.
      * intros H k [<-|Hk]; [exact E | now apply H].
      * intros H k Hk. apply H. now right.
    + split; [discriminate|]. intros H. specialize (H k0 (or_introl eq_refl)). congruence.
Qed.

Lemma load_dict_checked (setstate : value -> M pyobj unit)
    (state_path : string) (dir : directory)
    (states : dict value) (live : dict pyobj) :
  dir !! state_path = Some (FPickle (VDict states)) ->
  _load_dict setstate state_path dir live =
  match List.filter (fun k => negb (dict_mem k live)) (dict_keys states) with
  | [] => restore_loop setstate states live
  | unexpected => (live, Raise (ValueError (UnexpectedKeys state_path unexpected)))
  end.
Proof.
  intros Hf. unfold _load_dict. rewrite Hf. unfold bind, lift_result, get. cbn.
  now destruct (List.filter _ _).
Qed.


(** ** Attributes *)

Lemma assoc_declared_names (n : string) :
  is_Some (assoc n declared) <->
  In n ["network"; "pipeline"; "traces"; "mode"; "num_devices"; "log_steps";
        "total_epochs"; "batch_idx"; "max_train_steps_per_epoch";
        "max_eval_steps_per_epoch"; "stop_training"; "summary";
        "experiment_time"; "global_step"; "epoch_idx"].
Proof.
  unfold declared. cbn [assoc In].
  repeat match goal with
         | |- context [String.eqb ?a n] =>
             destruct (String.eqb_spec a n) as [<-|?]; [split; eauto 20|]
         end.
  split; [intros [? [=]] | intuition congruence].
Qed.

Lemma key_eqb_str (n : string) (k : value) :
  key_eqb (VStr n) k = true -> k = VStr n.
Proof. destruct k; cbn; try discriminate. now intros ->%String.eqb_eq. Qed.

Lemma dict_get_app {V} (k : value) (a b : dict V) :
  dict_get k (a ++ b)%list =
  match dict_get k a with Some v => Some v | None => dict_get k b end.
Proof.
  induction a as [|[k0 v0] a IH]; cbn; [reflexivity|].
  now destruct (key_eqb k0 k).
Qed.

Lemma dict_get_map {V W} (g : V -> W) (k : value) (d : dict V) :
  dict_get k (map (fun kv => (fst kv, g (snd kv))) d) = g <$> dict_get k d.
Proof.
  induction d as [|[k0 v0] d IH]; cbn; [reflexivity|].
  now destruct (key_eqb k0 k).
Qed.

Lemma dict_get_set_eqv {V} (k k' : value) (v : V) (d : dict V) :
  key_eqb k' k = true -> dict_get k (dict_set k' v d) = Some v.
Proof.
  intros Heq. induction d as [|[k0 v0] d IH]; cbn.
  - now rewrite Heq.
  - destruct (key_eqb k0 k') eqn:E0; cbn.
    + now rewrite (key_eqb_trans _ _ _ E0 Heq).
    + destruct (key_eqb k0 k) eqn:E1; [|exact IH].
      rewrite key_eqb_sym in Heq. rewrite (key_eqb_trans _ _ _ E1 Heq) in E0.
      discriminate.
Qed.

(** The attributes that live in fields of their own. *)
Lemma getattr_declared_none (k : value) (s : t) :
  (forall n, k = VStr n -> assoc n declared = None) ->
  getattr k s = AValue <$> dict_get k (extra s).
Proof.
  intros Hk. unfold getattr, items. rewrite dict_get_app, dict_get_map.
  destruct k as [| | |n| |]; try reflexivity.
  specialize (Hk n eq_refl).
  assert (Hn : ~ is_Some (assoc n declared)) by (rewrite Hk; intros [? [=]]).
  rewrite assoc_declared_names in Hn. cbn [In] in Hn.
  cbn [dict_get key_eqb].
  repeat match goal with
         | |- context [String.eqb ?a n] =>
             destruct (String.eqb_spec a n) as [<-|?]; [exfalso; apply Hn; tauto|]
         end.
  reflexivity.
Qed.

Lemma getattr_setattr_same (k k' v : value) (s : t) :
  key_eqb k' k = true -> getattr k (setattr k' v s) = Some (AValue v).
Proof.
  intros Heq.
  assert (Hextra : (forall n, k' = VStr n -> assoc n declared = None) ->
                   getattr k (set_extra (dict_set k' v (extra s)) s) = Some (AValue v)).
  { intros Hk'. rewrite getattr_declared_none.
    - destruct s. cbn [extra set_extra]. now rewrite dict_get_set_eqv.
    - intros n ->. destruct k'; try discriminate.
      apply key_eqb_str in Heq as [= ->]. now apply Hk'. }
  destruct k' as [| | |n| |]; try (apply Hextra; discriminate).
  unfold setattr. destruct (assoc n declared) as [store|] eqn:Hn.
  - apply key_eqb_str in Heq as ->.
    assert (Hin : is_Some (assoc n declared)) by eauto.
    rewrite assoc_declared_names in Hin. cbn [In] in Hin.
    repeat destruct Hin as [<-|Hin]; try (now destruct Hin);
      cbn in Hn; injection Hn as <-; now destruct s.
  - apply Hextra. now intros ? [= <-].
Qed.

Lemma getattr_setattr_other (k k' v : value) (s : t) :
  key_eqb k' k = false -> getattr k (setattr k' v s) = getattr k s.
Proof.
  intros Hne.
  assert (Hextra : getattr k (set_extra (dict_set k' v (extra s)) s) = getattr k s).
  { unfold getattr, items. rewrite !dict_get_app, !dict_get_map.
    destruct s. cbn [extra set_extra network pipeline traces mode num_devices
      log_steps total_epochs batch_idx max_train_steps_per_epoch
      max_eval_steps_per_epoch stop_training summary experiment_time
      global_step epoch_idx].
    now rewrite dict_get_set_other. }
  destruct k' as [| | |n| |]; try exact Hextra.
  unfold setattr. destruct (assoc n declared) as [store|] eqn:Hn; [|exact Hextra].
  assert (Hin : is_Some (assoc n declared)) by eauto.
  rewrite assoc_declared_names in Hin. cbn [In] in Hin.
  repeat destruct Hin as [<-|Hin]; try (now destruct Hin);
    cbn in Hn; injection Hn as <-; destruct s;
    unfold getattr, items; rewrite !dict_get_app; cbn [dict_get] in *;
    cbn [set_network set_pipeline set_traces set_mode set_num_devices
         set_log_steps set_total_epochs set_batch_idx
         set_max_train_steps_per_epoch set_max_eval_steps_per_epoch
         set_stop_training set_summary set_experiment_time set_global_step
         set_epoch_idx extra network pipeline traces mode num_devices
         log_steps total_epochs batch_idx max_train_steps_per_epoch
         max_eval_steps_per_epoch stop_training summary experiment_time
         global_step epoch_idx];
    rewrite Hne; reflexivity.
Qed.

(** ** Merging the attribute file *)

Lemma dict_get_eqv {V} (k k' : value) (d : dict V) :
  key_eqb k' k = true -> dict_get k d = dict_get k' d.
Proof.
  intros Heq. induction d as [|[k0 v0] d IH]; cbn; [reflexivity|].
  destruct (key_eqb k0 k) eqn:E.
  - rewrite key_eqb_sym in Heq. now rewrite (key_eqb_trans _ _ _ E Heq).
  - destruct (key_eqb k0 k') eqn:E'; [|exact IH].
    now rewrite (key_eqb_trans _ _ _ E' Heq) in E.
Qed.

Lemma unique_keys_rev {V} (k : value) (d : dict V) :
  unique_keys d -> dict_get k (rev d) = dict_get k d.
Proof.
  induction d as [|[k0 v0] d IH]; [reflexivity|]. intros [Hk0 Hd].
  cbn. rewrite dict_get_app, (IH Hd). cbn.
  destruct (key_eqb k0 k) eqn:E.
  - now rewrite (dict_get_eqv k k0 d E), Hk0.
  - now destruct (dict_get k d).
Qed.

Lemma unique_keys_set {V} (k : value) (v : V) (d : dict V) :
  unique_keys d -> unique_keys (dict_set k v d).
Proof.
  induction d as [|[k0 v0] d IH]; cbn; [tauto|]. intros [Hk0 Hd].
  destruct (key_eqb k0 k) eqn:E; cbn; [tauto|]. split; [|now apply IH].
  rewrite dict_get_set_other; [assumption | now rewrite key_eqb_sym].
Qed.

Lemma unique_keys_of_pairs {V} (l : list (value * V)) : unique_keys (dict_of_pairs l).
Proof.
  unfold dict_of_pairs. generalize (I : unique_keys ([] : dict V)).
  generalize ([] : dict V). induction l as [|[k v] l IH]; intros acc Hacc; [assumption|].
  cbn. apply IH. now apply unique_keys_set.
Qed.

Lemma dict_get_fold_set {V} (k : value) (l : list (value * V)) (acc : dict V) :
  dict_get k (fold_left (fun d kv => dict_set (fst kv) (snd kv) d) l acc) =
  match dict_get k (rev l) with Some v => Some v | None => dict_get k acc end.
Proof.
  revert acc. induction l as [|[k0 v0] l IH]; intros acc; [reflexivity|].
  cbn. rewrite IH, dict_get_app. destruct (dict_get k (rev l)); [reflexivity|].
  cbn. destruct (key_eqb k0 k) eqn:E.
  - now apply dict_get_set_eqv.
  - now apply dict_get_set_other.
Qed.

Lemma dict_get_of_pairs {V} (k : value) (l : list (value * V)) :
  dict_get k (dict_of_pairs l) = dict_get k (rev l).
Proof.
  unfold dict_of_pairs. rewrite dict_get_fold_set. now destruct (dict_get k (rev l)).
Qed.

Lemma update_with_dict (d : dict value) (s : t) :
  update_with setattr (VDict d) s
  = (fold_left (fun s kv => setattr (fst kv) (snd kv) s) d s, Ok tt).
Proof.
  cbn. revert s. induction d as [|[k v] d IH]; intros s; [reflexivity|].
  cbn. unfold bind, modify. apply IH.
Qed.

Lemma getattr_fold_setattr (k : value) (d : dict value) (s : t) :
  getattr k (fold_left (fun s kv => setattr (fst kv) (snd kv) s) d s) =
  match dict_get k (rev d) with
  | Some v => Some (AValue v)
  | None => getattr k s
  end.
Proof.
  revert s. induction d as [|[k0 v0] d IH]; intros s; [reflexivity|].
  cbn [fold_left rev fst snd]. rewrite IH, dict_get_app.
  destruct (dict_get k (rev d)); [reflexivity|].
  cbn [dict_get]. destruct (key_eqb k0 k) eqn:E.
  - now apply getattr_setattr_same.
  - now apply getattr_setattr_other.
Qed.

(** After the merge every key of the file holds the file's value, and the
    other attributes are as they were. *)
Lemma load_attributes_object (load_dir : directory) (pairs : list (string * json)) (s : t) :
  load_dir !! "system.json" = Some (FJson (JObj pairs)) ->
  exists d s',
    json_load (JObj pairs) = VDict d /\
    load_attributes load_dir s = (s', Ok tt) /\
    forall k, getattr k s' =
              match dict_get k d with
              | Some v => Some (AValue v)
              | None => getattr k s
              end.
Proof.
  intros Hf. eexists _, _. split; [reflexivity|].
  unfold load_attributes. rewrite Hf. unfold bind, lift_result, read_json.
  cbn [json_load]. rewrite update_with_dict. split; [reflexivity|].
  intros k. rewrite getattr_fold_setattr.
  now rewrite unique_keys_rev by apply unique_keys_of_pairs.
Qed.

(** C8, as the code has it.  [load_state] merges the attribute file with
    [self.__dict__.update(state)], which rejects nothing: for a file holding
    a JSON object the merge returns normally, every key of the file then
    holds the file's value as an attribute of the [System], and every other
    attribute is as it was.  A key named [network], [pipeline] or [traces]
    is no exception: the reference to the collaborator is replaced by the
    plain data of the file.  A key the class does not declare becomes a new
    attribute. *)
Theorem load_attributes_overwrites
    (load_dir : directory) (pairs : list (string * json)) (s : t) :
  load_dir !! "system.json" = Some (FJson (JObj pairs)) ->
  exists d s',
    json_load (JObj pairs) = VDict d /\
    load_attributes load_dir s = (s', Ok tt) /\
    (forall k v, dict_get k d = Some v -> getattr k s' = Some (AValue v)) /\
    (forall k, dict_get k d = None -> getattr k s' = getattr k s) /\
    (forall v, dict_get (VStr "network") d = Some v -> network s' = Data v) /\
    (forall v, dict_get (VStr "pipeline") d = Some v -> pipeline s' = Data v) /\
    (forall v, dict_get (VStr "traces") d = Some v -> traces s' = Data v).
Proof.
  intros Hf.
  destruct (load_attributes_object load_dir pairs s Hf) as (d & s' & Hd & Hrun & Hget).
  exists d, s'. split; [exact Hd|]. split; [exact Hrun|].
  assert (Hsome : forall k v, dict_get k d = Some v -> getattr k s' = Some (AValue v)).
  { intros k v Hk. now rewrite Hget, Hk. }
  repeat split.
  - exact Hsome.
  - intros k Hk. now rewrite Hget, Hk.
  - intros v Hk. apply Hsome in Hk. cbn in Hk. now destruct (network s'); inversion Hk.
  - intros v Hk. apply Hsome in Hk. cbn in Hk. now destruct (pipeline s'); inversion Hk.
  - intros v Hk. apply Hsome in Hk. cbn in Hk. now destruct (traces s'); inversion Hk.
Qed.

(** A checkpoint whose [system.json] carries the key [traces] is restored
    without complaint into a [System] with one live trace: [load_state]
    returns normally, [self.traces] is now the list [[None]] of the file,
    and the trace itself was never restored. *)
Lemma collaborator_key_is_merged :
  let r := load_state Demo.setstate Demo.load_model
             Demo.checkpoint_naming_traces (Demo.system 0) in
  snd r = Ok tt /\
  traces (Demo.system 0) = Live [Demo.trace 0] /\
  traces (fst r) = Data (VList [VNone]) /\
  getattr (VStr "note") (fst r) = Some (AValue (VStr "x")).
Proof. vm_compute. repeat split. Qed.

(** A run stopped early in epoch 3 of 5: the first [reset_for_test] keeps
    [epoch_idx] at 3 and clears the stop flag, so the second one moves
    [epoch_idx] to 5.  Twice is not once. *)
Lemma reset_for_test_twice_differs :
  let once := reset_for_test Demo.clock1 VNone Demo.stopped_early in
  let twice := reset_for_test Demo.clock2 VNone (fst once) in
  stop_training Demo.stopped_early = VBool true /\
  snd once = Ok tt /\ snd twice = Ok tt /\
  epoch_idx (fst once) = VInt 3 /\ epoch_idx (fst twice) = VInt 5 /\
  fst twice <> fst once.
Proof. vm_compute. repeat split. discriminate. Qed.

(** ** Saving, then restoring *)

Lemma for_each_save_model_keeps (save_model : Model -> M directory unit)
    (p : string) (models : list Model) (d d' : directory) :
  (forall m d d', In m models -> save_model m d = (d', Ok tt) -> d' !! p = d !! p) ->
  for_each models save_model d = (d', Ok tt) -> d' !! p = d !! p.
Proof.
  revert d. induction models as [|m models IH]; intros d Hkeep.
  - now intros [= <-].
  - cbn. unfold bind. destruct (save_model m d) as [d1 [[]|e]] eqn:Hm; [|discriminate].
    intros H. rewrite (IH d1); [|intros; eapply Hkeep; eauto; now right|exact H].
    apply (Hkeep m); [now left | exact Hm].
Qed.

Lemma save_list_keeps (getstate : pyobj -> result value) (path p : string)
    (objs : result (list pyobj)) (d d' : directory) :
  save_list getstate path objs d = (d', Ok tt) -> p <> path -> d' !! p = d !! p.
Proof.
  unfold save_list, bind, write, modify, lift_result.
  destruct objs as [objs|e]; [|discriminate].
  destruct (collect _ objs) as [states|e]; [|discriminate].
  intros [= <-] Hp. rewrite !lookup_insert_ne by congruence. reflexivity.
Qed.

Lemma save_state_files (getstate : pyobj -> result value)
    (save_model : Model -> M directory unit) (s : t) (dir0 dir1 : directory) :
  (forall net m d d',
     network s = Live net -> In m (Network.models net) ->
     save_model m d = (d', Ok tt) -> d' !! "system.json" = d !! "system.json") ->
  save_state getstate save_model s dir0 = (dir1, Ok tt) ->
  exists j,
    state_json (List.filter (fun kv => is_restorable (snd kv)) (items s)) = Some j /\
    dir1 !! "system.json" = Some (FJson (JObj j)) /\
    dir1 !! "summary.pkl"
    = Some match summary s with
           | Live sm => FPickleSummary sm
           | Data v => FPickle v
           end.
Proof.
  intros Hkeep. unfold save_state.
  destruct (state_json _) as [j|] eqn:Hj.
  2:{ unfold bind, write, modify, raise. discriminate. }
  unfold bind at 1 2. unfold write at 1 2, modify.
  unfold bind at 1. unfold lift_result at 1.
  destruct (network_of s) as [net|e] eqn:Hnet; [|discriminate].
  unfold network_of in Hnet. destruct (network s) as [net0|v] eqn:Hnet0; [|discriminate].
  injection Hnet as ->.
  unfold bind at 1.
  destruct (for_each (Network.models net) save_model _) as [d2 [[]|e]] eqn:Hmodels;
    [|discriminate].
  apply (for_each_save_model_keeps _ "system.json") in Hmodels;
    [|intros m d d' Hin; now apply (Hkeep net)].
  rewrite lookup_insert_eq in Hmodels.
  unfold bind at 1. unfold write at 1, modify.
  unfold bind at 1.
  destruct (save_list getstate "traces.pkl" _ _) as [d3 [[]|e]] eqn:H3; [|discriminate].
  unfold bind at 1.
  destruct (save_list getstate "tops.pkl" _ _) as [d4 [[]|e]] eqn:H4; [|discriminate].
  unfold bind at 1.
  destruct (save_list getstate "nops.pkl" _ _) as [d5 [[]|e]] eqn:H5; [|discriminate].
  unfold bind, write, modify, lift_result.
  destruct (pipeline_of s) as [pipe|e]; [|discriminate].
  destruct (dataset_states _ _) as [ds|e]; [|discriminate].
  intros [= <-]. exists j. split; [reflexivity|].
  pose proof (fun p => save_list_keeps _ _ p _ _ _ H3) as K3.
  pose proof (fun p => save_list_keeps _ _ p _ _ _ H4) as K4.
  pose proof (fun p => save_list_keeps _ _ p _ _ _ H5) as K5.
  split.
  - rewrite !lookup_insert_ne by discriminate.
    rewrite K5, K4, K3 by discriminate.
    rewrite lookup_insert_ne by discriminate. exact Hmodels.
  - rewrite !lookup_insert_ne by discriminate.
    rewrite K5, K4, K3 by discriminate.
    now rewrite lookup_insert_eq.
Qed.

Lemma state_json_lookup (n : string) (its : list (value * attr)) (j : list (string * json)) :
  state_json (List.filter (fun kv => is_restorable (snd kv)) its) = Some j ->
  dict_get (VStr n)
    (rev (map (fun kx => match kx with (k, x) => (VStr k, json_load x) end) j))
  = last_restorable n its.
Proof.
  revert j. induction its as [|[k a] its IH]; intros j.
  - now intros [= <-].
  - cbn [List.filter snd]. unfold is_restorable at 1.
    destruct (attr_json a) as [ja|] eqn:Ha.
    + cbn [state_json]. rewrite Ha.
      destruct (json_key k) as [n'|] eqn:Hk; [|discriminate].
      destruct (state_json _) as [js|] eqn:Hjs; [|discriminate].
      intros [= <-]. cbn [map rev last_restorable]. rewrite dict_get_app, (IH js eq_refl).
      rewrite Hk, Ha. cbn. now destruct (last_restorable n its).
    + intros Hj. rewrite (IH j Hj). cbn [last_restorable]. rewrite Ha.
      destruct (last_restorable n its); [reflexivity|].
      destruct (json_key k); [|reflexivity]. now destruct (String.eqb _ _).
Qed.

Lemma last_restorable_app (n : string) (a b : list (value * attr)) :
  last_restorable n (a ++ b)%list =
  match last_restorable n b with
  | Some v => Some v
  | None => last_restorable n a
  end.
Proof.
  induction a as [|[k x] a IH]; cbn.
  - now destruct (last_restorable n b).
  - rewrite IH. now destruct (last_restorable n b).
Qed.

Lemma last_restorable_extra (n : string) (extra : dict value) :
  (forall k n', In k (dict_keys extra) -> json_key k = Some n' -> n' <> n) ->
  last_restorable n (map (fun kv => (fst kv, AValue (snd kv))) extra) = None.
Proof.
  induction extra as [|[k v] extra IH]; intros Hk; [reflexivity|].
  cbn. rewrite IH by (intros k' n' Hin; apply Hk; now right).
  destruct (json_key k) as [n'|] eqn:Hn'; [|reflexivity].
  specialize (Hk k n' (or_introl eq_refl) Hn').
  now apply String.eqb_neq in Hk as ->.
Qed.

(** A scalar comes back from JSON as it went in. *)
Lemma json_scalar_roundtrip (v : value) :
  hashable v = true -> json_load <$> json_dump v = Some v.
Proof. now destruct v. Qed.

(** What the attribute file written for [s] holds under the names of the
    counters and of the mode. *)
Lemma saved_counters (s : t) :
  extra_ok s ->
  hashable (mode s) = true -> hashable (batch_idx s) = true ->
  hashable (global_step s) = true -> hashable (epoch_idx s) = true ->
  last_restorable "mode" (items s) = Some (mode s) /\
  last_restorable "batch_idx" (items s) = Some (batch_idx s) /\
  last_restorable "global_step" (items s) = Some (global_step s) /\
  last_restorable "epoch_idx" (items s) = Some (epoch_idx s).
Proof.
  intros Hex Hm Hb Hg He.
  assert (Hnone : forall n, is_Some (assoc n declared) ->
            last_restorable n (map (fun kv => (fst kv, AValue (snd kv))) (extra s)) = None).
  { intros n Hn. apply last_restorable_extra. intros k n' Hin Hk ->.
    rewrite (Hex k n Hin Hk) in Hn. now destruct Hn. }
  unfold items. rewrite !last_restorable_app, !Hnone by (cbn; eauto).
  cbn [last_restorable json_key String.eqb Ascii.eqb Bool.eqb attr_json].
  rewrite !json_scalar_roundtrip by assumption. repeat split.
Qed.

(** The steps that restore collaborators leave the progress alone. *)

Lemma same_progress_trans (a b c : t) :
  same_progress a b -> same_progress b c -> same_progress a c.
Proof. unfold same_progress. intuition congruence. Qed.

Lemma load_models_progress (load_model : string -> directory -> M Model unit)
    (dir : directory) (s : t) :
  same_progress s (fst (load_models load_model dir s)).
Proof.
  unfold load_models, bind, get, lift_result, network_of, zoom.
  destruct s as [net pipe tr md nd ls te bi mt me st sm et gs ei ex]; cbn.
  destruct net as [net|v]; cbn; [|repeat split].
  destruct (for_each_mut _ _); repeat split.
Qed.

Lemma load_traces_progress (setstate : value -> M pyobj unit) (dir : directory) (s : t) :
  same_progress s (fst (load_traces setstate dir s)).
Proof.
  unfold load_traces, zoom.
  destruct s as [net pipe tr md nd ls te bi mt me st sm et gs ei ex]; cbn.
  destruct (_load_list _ _ _ _); repeat split.
Qed.

Lemma load_tensor_ops_progress (setstate : value -> M pyobj unit) (dir : directory) (s : t) :
  same_progress s (fst (load_tensor_ops setstate dir s)).
Proof.
  unfold load_tensor_ops, bind, get, lift_result, network_of, zoom.
  destruct s as [net pipe tr md nd ls te bi mt me st sm et gs ei ex]; cbn.
  destruct net as [net|v]; cbn; [|repeat split].
  destruct (_load_list _ _ _ _) as [[ops|v] r]; repeat split.
Qed.

Lemma load_numpy_ops_progress (setstate : value -> M pyobj unit) (dir : directory) (s : t) :
  same_progress s (fst (load_numpy_ops setstate dir s)).
Proof.
  unfold load_numpy_ops, bind, get, lift_result, pipeline_of, zoom.
  destruct s as [net pipe tr md nd ls te bi mt me st sm et gs ei ex]; cbn.
  destruct pipe as [pipe|v]; cbn; [|repeat split].
  destruct (_load_list _ _ _ _) as [[ops|v] r]; repeat split.
Qed.

Lemma load_datasets_progress (setstate : value -> M pyobj unit) (dir : directory) (s : t) :
  same_progress s (fst (load_datasets setstate dir s)).
Proof.
  unfold load_datasets, bind, get, lift_result, pipeline_of, zoom.
  destruct s as [net pipe tr md nd ls te bi mt me st sm et gs ei ex]; cbn.
  destruct pipe as [pipe|v]; cbn; [|repeat split].
  destruct (_load_dict _ _ _ _); repeat split.
Qed.

Lemma load_summary_restores (dir : directory) (sm : Summary.t) (s s' : t) :
  dir !! "summary.pkl" = Some (FPickleSummary sm) ->
  load_summary dir s = (s', Ok tt) ->
  mode s' = mode s /\ batch_idx s' = batch_idx s /\
  global_step s' = global_step s /\ epoch_idx s' = epoch_idx s /\
  summary s' = Live sm.
Proof.
  intros Hf. unfold load_summary. rewrite Hf.
  unfold bind, summary_object, get, lift_result, modify, ret, raise. cbn.
  destruct s as [net pipe tr md nd ls te bi mt me st [sm0|v] et gs ei ex]; cbn;
    [|discriminate].
  intros [= <-]. repeat split.
Qed.

(** The counters and the mode that [load_attributes] reads back from the
    file that [save_state] wrote for [s]. *)
Lemma load_attributes_counters (dir : directory) (j : list (string * json)) (s f : t) :
  extra_ok s ->
  hashable (mode s) = true -> hashable (batch_idx s) = true ->
  hashable (global_step s) = true -> hashable (epoch_idx s) = true ->
  state_json (List.filter (fun kv => is_restorable (snd kv)) (items s)) = Some j ->
  dir !! "system.json" = Some (FJson (JObj j)) ->
  exists f1, load_attributes dir f = (f1, Ok tt) /\
             mode f1 = mode s /\ batch_idx f1 = batch_idx s /\
             global_step f1 = global_step s /\ epoch_idx f1 = epoch_idx s.
Proof.
  intros Hex Hm Hb Hg He Hj Hf.
  destruct (load_attributes_object dir j f Hf) as (d & f1 & Hd & Hrun & Hget).
  exists f1. split; [exact Hrun|].
  cbn [json_load] in Hd. injection Hd as <-.
  destruct (saved_counters s Hex Hm Hb Hg He) as (Lm & Lb & Lg & Le).
  assert (Hread : forall n v, last_restorable n (items s) = Some v ->
                              getattr (VStr n) f1 = Some (AValue v)).
  { intros n v Hn. rewrite Hget, dict_get_of_pairs, (state_json_lookup n _ j Hj).
    now rewrite Hn. }
  apply Hread in Lm, Lb, Lg, Le. cbn in Lm, Lb, Lg, Le.
  repeat split; congruence.
Qed.

(** If [load_state] returns on the directory written for [s], the mode,
    the counters and the summary it leaves are those of [s]. *)
Lemma restored_progress
    (getstate : pyobj -> result value) (setstate : value -> M pyobj unit)
    (save_model : Model -> M directory unit)
    (load_model : string -> directory -> M Model unit)
    (s : t) (sm : Summary.t) (dir0 dir1 : directory)
    (network' : Network.t) (pipeline' : Pipeline.t) (traces' : list pyobj)
    (mode' num_devices' log_steps' total_epochs' : value)
    (max_train' max_eval' system_config' : value) (f' : t) :
  (forall net m d d',
     network s = Live net -> In m (Network.models net) ->
     save_model m d = (d', Ok tt) -> d' !! "system.json" = d !! "system.json") ->
  extra_ok s ->
  summary s = Live sm ->
  hashable (mode s) = true -> hashable (batch_idx s) = true ->
  hashable (global_step s) = true -> hashable (epoch_idx s) = true ->
  save_state getstate save_model s dir0 = (dir1, Ok tt) ->
  load_state setstate load_model dir1
    (init network' pipeline' traces' mode' num_devices' log_steps' total_epochs'
          max_train' max_eval' system_config') = (f', Ok tt) ->
  mode f' = mode s /\ batch_idx f' = batch_idx s /\
  global_step f' = global_step s /\ epoch_idx f' = epoch_idx s /\
  summary f' = Live sm.
Proof.
  intros Hkeep Hex Hsm Hm Hb Hg He Hsave Hload.
  destruct (save_state_files _ _ _ _ _ Hkeep Hsave) as (j & Hj & Hjson & Hpkl).
  rewrite Hsm in Hpkl.
  set (f := init _ _ _ _ _ _ _ _ _ _) in Hload.
  destruct (load_attributes_counters dir1 j s f Hex Hm Hb Hg He Hj Hjson)
    as (f1 & H1 & A1).
  unfold load_state in Hload. unfold bind at 1 in Hload. rewrite H1 in Hload.
  unfold bind at 1 in Hload.
  pose proof (load_models_progress load_model dir1 f1) as P2.
  destruct (load_models load_model dir1 f1) as [f2 [[]|e]]; [|discriminate].
  unfold bind at 1 in Hload.
  destruct (load_summary dir1 f2) as [f3 [[]|e]] eqn:H3; [|discriminate].
  pose proof (load_summary_restores dir1 sm f2 f3 Hpkl H3) as P3.
  unfold bind at 1 in Hload.
  pose proof (load_traces_progress setstate dir1 f3) as P4.
  destruct (load_traces setstate dir1 f3) as [f4 [[]|e]]; [|discriminate].
  unfold bind at 1 in Hload.
  pose proof (load_tensor_ops_progress setstate dir1 f4) as P5.
  destruct (load_tensor_ops setstate dir1 f4) as [f5 [[]|e]]; [|discriminate].
  unfold bind at 1 in Hload.
  pose proof (load_numpy_ops_progress setstate dir1 f5) as P6.
  destruct (load_numpy_ops setstate dir1 f5) as [f6 [[]|e]]; [|discriminate].
  pose proof (load_datasets_progress setstate dir1 f6) as P7.
  rewrite Hload in P7. cbn [fst] in *.
  unfold same_progress in *. intuition congruence.
Qed.

(** ** When the restore goes through *)

Lemma collect_length {A B} (f : A -> result B) (xs : list A) (ys : list B) :
  collect f xs = Ok ys -> length ys = length xs.
Proof.
  revert ys. induction xs as [|x xs IH]; intros ys; cbn.
  - now intros [= <-].
  - destruct (f x); [|discriminate]. destruct (collect f xs); [|discriminate].
    intros [= <-]. cbn. now rewrite (IH _ eq_refl).
Qed.

Lemma save_list_file (getstate : pyobj -> result value) (path : string)
    (objs : result (list pyobj)) (d d' : directory) :
  save_list getstate path objs d = (d', Ok tt) ->
  exists l states,
    objs = Ok l /\ length states = length l /\
    d' = <[path := FPickle (VList states)]> (<[path := FEmpty]> d).
Proof.
  unfold save_list, bind, write, modify, lift_result.
  destruct objs as [l|e]; [|discriminate].
  destruct (collect _ l) as [states|e] eqn:Hc; [|discriminate].
  intros [= <-]. exists l, states. repeat split. now apply collect_length in Hc.
Qed.

Lemma dataset_states_keys (getstate : pyobj -> result value)
    (data : dict pyobj) (ds : dict value) :
  dataset_states getstate data = Ok ds ->
  forall k, In k (dict_keys ds) -> In k (dict_keys data).
Proof.
  revert ds. induction data as [|[k0 o] data IH]; intros ds; cbn.
  - now intros [= <-].
  - destruct (hasattr_getstate o).
    + destruct (getstate o); [|discriminate].
      destruct (dataset_states getstate data) as [d|]; [|discriminate].
      intros [= <-] k [<-|Hk]; [now left | right; now apply (IH d)].
    + intros H k Hk. right. now apply (IH ds).
Qed.

Lemma for_each_save_model_files (save_model : Model -> M directory unit)
    (models : list Model) (d d' : directory) :
  (forall m d d',
     In m models -> save_model m d = (d', Ok tt) ->
     (forall p, is_Some (d !! p) -> is_Some (d' !! p)) /\
     exists exts, model_extensions m = Ok exts /\
                  is_Some (d' !! weights_path m (fst exts)) /\
                  is_Some (d' !! optimizer_path m (snd exts))) ->
  for_each models save_model d = (d', Ok tt) ->
  (forall p, is_Some (d !! p) -> is_Some (d' !! p)) /\
  forall m, In m models ->
    exists exts, model_extensions m = Ok exts /\
                 is_Some (d' !! weights_path m (fst exts)) /\
                 is_Some (d' !! optimizer_path m (snd exts)).
Proof.
  revert d. induction models as [|m models IH]; intros d Hsave.
  - intros [= <-]. split; [auto | intros m []].
  - cbn. unfold bind. destruct (save_model m d) as [d1 [[]|e]] eqn:Hm; [|discriminate].
    intros Hrest.
    destruct (Hsave m d d1 (or_introl eq_refl) Hm) as (Hkeep1 & exts & Hx & Hw & Ho).
    destruct (IH d1) as (Hkeep & Hfiles);
      [intros; eapply Hsave; eauto; now right | exact Hrest |].
    split; [auto|]. intros m0 [<-|Hin]; [|now apply Hfiles].
    exists exts. auto.
Qed.

Lemma save_state_blobs (getstate : pyobj -> result value)
    (save_model : Model -> M directory unit) (s : t) (dir0 dir1 : directory) :
  (forall net m d d',
     network s = Live net -> In m (Network.models net) ->
     save_model m d = (d', Ok tt) ->
     (forall p, is_Some (d !! p) -> is_Some (d' !! p)) /\
     exists exts, model_extensions m = Ok exts /\
                  is_Some (d' !! weights_path m (fst exts)) /\
                  is_Some (d' !! optimizer_path m (snd exts))) ->
  save_state getstate save_model s dir0 = (dir1, Ok tt) ->
  exists net pipe tr,
    network s = Live net /\ pipeline s = Live pipe /\
    sequence_of (traces s) = Ok tr /\
    (forall m, In m (Network.models net) ->
       exists exts, model_extensions m = Ok exts /\
                    is_Some (dir1 !! weights_path m (fst exts)) /\
                    is_Some (dir1 !! optimizer_path m (snd exts))) /\
    (exists st, dir1 !! "traces.pkl" = Some (FPickle (VList st)) /\
                length st = length tr) /\
    (exists st, dir1 !! "tops.pkl" = Some (FPickle (VList st)) /\
                length st = length (Network.ops net)) /\
    (exists st, dir1 !! "nops.pkl" = Some (FPickle (VList st)) /\
                length st = length (Pipeline.ops pipe)) /\
    (exists ds, dir1 !! "ds.pkl" = Some (FPickle (VDict ds)) /\
                forall k, In k (dict_keys ds) -> In k (dict_keys (Pipeline.data pipe))).
Proof.
  intros Hback. unfold save_state.
  destruct (state_json _) as [j|] eqn:Hj.
  2:{ unfold bind, write, modify, raise. discriminate. }
  unfold bind at 1 2. unfold write at 1 2, modify.
  unfold bind at 1. unfold lift_result at 1.
  unfold network_of, pipeline_of.
  destruct (network s) as [net|v] eqn:Hnet; [|discriminate].
  unfold bind at 1.
  destruct (for_each (Network.models net) save_model _) as [d2 [[]|e]] eqn:Hmodels;
    [|discriminate].
  apply for_each_save_model_files in Hmodels as [_ Hfiles];
    [|intros m d d' Hin; now apply (Hback net)].
  unfold bind at 1. unfold write at 1, modify.
  unfold bind at 1.
  destruct (save_list getstate "traces.pkl" _ _) as [d3 [[]|e]] eqn:H3; [|discriminate].
  unfold bind at 1.
  destruct (save_list getstate "tops.pkl" _ _) as [d4 [[]|e]] eqn:H4; [|discriminate].
  unfold bind at 1.
  destruct (save_list getstate "nops.pkl" _ _) as [d5 [[]|e]] eqn:H5; [|discriminate].
  unfold bind, write, modify, lift_result.
  destruct (pipeline s) as [pipe|v] eqn:Hpipe; [|discriminate].
  destruct (dataset_states _ _) as [ds|e] eqn:Hds; [|discriminate].
  intros [= <-].
  apply save_list_file in H3 as (tr & st3 & Htr & L3 & ->).
  apply save_list_file in H4 as (l4 & st4 & [= <-] & L4 & ->).
  apply save_list_file in H5 as (l5 & st5 & [= <-] & L5 & ->).
  exists net, pipe, tr. repeat split; try assumption.
  - intros m Hin. destruct (Hfiles m Hin) as (exts & Hx & Hw & Ho).
    exists exts. repeat split; [exact Hx | |];
      repeat (apply lookup_insert_is_Some'; right); assumption.
  - exists st3. split; [|exact L3].
    rewrite !lookup_insert_ne by discriminate. now rewrite lookup_insert_eq.
  - exists st4. split; [|exact L4].
    rewrite !lookup_insert_ne by discriminate. now rewrite lookup_insert_eq.
  - exists st5. split; [|exact L5].
    rewrite !lookup_insert_ne by discriminate. now rewrite lookup_insert_eq.
  - exists ds. split; [now rewrite lookup_insert_eq|].
    now apply dataset_states_keys with getstate.
Qed.

Lemma restore_zip_ok (setstate : value -> M pyobj unit)
    (states : list value) (objs : list pyobj) :
  (forall st o, In st states -> snd (restore setstate st o) = Ok tt) ->
  snd (restore_zip setstate states objs) = Ok tt.
Proof.
  revert objs. induction states as [|st states IH]; intros objs Hok;
    [now destruct objs|].
  destruct objs as [|o objs]; [reflexivity|]. cbn.
  pose proof (Hok st o (or_introl eq_refl)) as Hr.
  destruct (restore setstate st o) as [o' r]. cbn in Hr. subst r.
  specialize (IH objs (fun st' o' H => Hok st' o' (or_intror H))).
  now destruct (restore_zip setstate states objs) as [objs' r].
Qed.

Lemma load_list_ok (setstate : value -> M pyobj unit) (state_path : string)
    (dir : directory) (states : list value) (objs : list pyobj) :
  dir !! state_path = Some (FPickle (VList states)) ->
  length states = length objs ->
  (forall st o, In st states -> snd (restore setstate st o) = Ok tt) ->
  exists objs', _load_list setstate state_path dir (Live objs) = (Live objs', Ok tt).
Proof.
  intros Hf Hlen Hok. unfold _load_list. rewrite Hf.
  unfold bind, lift_result, get, zoom. cbn [read_pickle].
  apply Nat.eqb_eq in Hlen. rewrite Hlen. cbn [negb].
  pose proof (restore_zip_ok setstate states objs Hok) as Hr.
  destruct (restore_zip setstate states objs) as [objs' r]. cbn in Hr. subst r.
  now exists objs'.
Qed.

Lemma load_list_data_ok (setstate : value -> M pyobj unit) (state_path : string)
    (dir : directory) (states l : list value) :
  dir !! state_path = Some (FPickle (VList states)) ->
  length states = length l ->
  _load_list setstate state_path dir (Data (VList l)) = (Data (VList l), Ok tt).
Proof.
  intros Hf Hlen. unfold _load_list. rewrite Hf.
  unfold bind, lift_result, get, ret. cbn [read_pickle py_iter].
  apply Nat.eqb_eq in Hlen. now rewrite Hlen.
Qed.

Lemma load_dict_ok (setstate : value -> M pyobj unit) (state_path : string)
    (dir : directory) (states : dict value) (live : dict pyobj) :
  dir !! state_path = Some (FPickle (VDict states)) ->
  (forall k, In k (dict_keys states) -> dict_mem k live = true) ->
  (forall k st o, In (k, st) states -> snd (restore setstate st o) = Ok tt) ->
  exists live', _load_dict setstate state_path dir live = (live', Ok tt).
Proof.
  intros Hf Hsub Hok. rewrite (load_dict_checked setstate state_path dir states live Hf).
  rewrite (proj2 (unexpected_nil states live) Hsub).
  pose proof (restore_loop_ok setstate states live Hsub Hok) as Hr.
  destruct (restore_loop setstate states live) as [live' r]. cbn in Hr. subst r.
  now exists live'.
Qed.

Lemma load_model_ok (load_model : string -> directory -> M Model unit)
    (dir : directory) (m : Model) (exts : string * string) :
  model_extensions m = Ok exts ->
  is_Some (dir !! weights_path m (fst exts)) ->
  is_Some (dir !! optimizer_path m (snd exts)) ->
  snd (load_model (weights_path m (fst exts)) dir m) = Ok tt ->
  snd (_load_model load_model dir m) = Ok tt.
Proof.
  intros Hx [fw Hw] [fo Ho] Hr. unfold _load_model, bind, get, lift_result.
  now rewrite Hx, Hw, Ho.
Qed.

Lemma for_each_mut_ok {A} (body : M A unit) (xs : list A) :
  (forall x, In x xs -> snd (body x) = Ok tt) ->
  exists xs', for_each_mut body xs = (xs', Ok tt).
Proof.
  induction xs as [|x xs IH]; intros Hok; [now exists []|]. cbn.
  pose proof (Hok x (or_introl eq_refl)) as Hr.
  destruct (body x) as [x' r]. cbn in Hr. subst r.
  destruct IH as [xs' ->]; [intros; apply Hok; now right|].
  now exists (x' :: xs').
Qed.

(** The references to the collaborators are not in the attribute file of
    a [System] that holds them; its list of traces is there only when no
    element of it is an instance. *)
Lemma saved_collaborators (s : t) (net : Network.t) (pipe : Pipeline.t)
    (sm : Summary.t) (tr : list pyobj) :
  extra_ok s ->
  network s = Live net -> pipeline s = Live pipe -> summary s = Live sm ->
  traces s = Live tr ->
  last_restorable "network" (items s) = None /\
  last_restorable "pipeline" (items s) = None /\
  last_restorable "summary" (items s) = None /\
  last_restorable "traces" (items s)
  = (fun js => VList (map json_load js)) <$> mapM plain_json tr.
Proof.
  intros Hex Hn Hp Hs Ht.
  assert (Hnone : forall n, is_Some (assoc n declared) ->
            last_restorable n (map (fun kv => (fst kv, AValue (snd kv))) (extra s)) = None).
  { intros n Hin. apply last_restorable_extra. intros k n' Hk Hn' ->.
    rewrite (Hex k n Hk Hn') in Hin. now destruct Hin. }
  unfold items. rewrite !last_restorable_app, !Hnone by (cbn; eauto).
  rewrite Hn, Hp, Hs, Ht.
  cbn [last_restorable json_key String.eqb Ascii.eqb Bool.eqb attr_json slot_attr
       fmap option_fmap option_map].
  repeat split. now destruct (mapM plain_json tr).
Qed.

Lemma load_attributes_collaborators (dir : directory) (j : list (string * json))
    (s f : t) (net net' : Network.t) (pipe pipe' : Pipeline.t)
    (sm sm' : Summary.t) (tr tr' : list pyobj) :
  extra_ok s ->
  network s = Live net -> pipeline s = Live pipe -> summary s = Live sm ->
  traces s = Live tr ->
  network f = Live net' -> pipeline f = Live pipe' -> summary f = Live sm' ->
  traces f = Live tr' ->
  state_json (List.filter (fun kv => is_restorable (snd kv)) (items s)) = Some j ->
  dir !! "system.json" = Some (FJson (JObj j)) ->
  exists f1,
    load_attributes dir f = (f1, Ok tt) /\
    network f1 = Live net' /\ pipeline f1 = Live pipe' /\ summary f1 = Live sm' /\
    (traces f1 = Live tr' \/
     exists l, traces f1 = Data (VList l) /\ length l = length tr).
Proof.
  intros Hex Hn Hp Hs Ht Hn' Hp' Hs' Ht' Hj Hf.
  destruct (load_attributes_object dir j f Hf) as (d & f1 & Hd & Hrun & Hget).
  exists f1. split; [exact Hrun|].
  cbn [json_load] in Hd. injection Hd as <-.
  destruct (saved_collaborators s net pipe sm tr Hex Hn Hp Hs Ht) as (Ln & Lp & Ls & Lt).
  assert (Hread : forall n, getattr (VStr n) f1 =
                            match last_restorable n (items s) with
                            | Some v => Some (AValue v)
                            | None => getattr (VStr n) f
                            end).
  { intros n. now rewrite Hget, dict_get_of_pairs, (state_json_lookup n _ j Hj). }
  pose proof (Hread "network") as Rn. pose proof (Hread "pipeline") as Rp.
  pose proof (Hread "summary") as Rs. pose proof (Hread "traces") as Rt.
  rewrite Ln in Rn. rewrite Lp in Rp. rewrite Ls in Rs. rewrite Lt in Rt.
  cbn in Rn, Rp, Rs, Rt. rewrite Hn' in Rn. rewrite Hp' in Rp. rewrite Hs' in Rs.
  rewrite Ht' in Rt. cbn in Rn, Rp, Rs, Rt.
  repeat split.
  - destruct (network f1); cbn in Rn; congruence.
  - destruct (pipeline f1); cbn in Rp; congruence.
  - destruct (summary f1); cbn in Rs; congruence.
  - destruct (mapM plain_json tr) as [js|] eqn:Hjs; cbn in Rt.
    + right. exists (map json_load js). split.
      * destruct (traces f1); cbn in Rt; congruence.
      * rewrite length_map. symmetry. now apply length_mapM in Hjs.
    + left. destruct (traces f1); cbn in Rt; congruence.
Qed.

(** [load_state] returns normally on the directory [save_state] wrote, for a
    fresh [System] whose collaborators have the shape of the saved ones,
    when the backend and the objects accept what was saved. *)
Lemma load_state_returns
    (getstate : pyobj -> result value) (setstate : value -> M pyobj unit)
    (save_model : Model -> M directory unit)
    (load_model : string -> directory -> M Model unit)
    (s : t) (net : Network.t) (pipe : Pipeline.t) (tr : list pyobj) (sm : Summary.t)
    (dir0 dir1 : directory)
    (network' : Network.t) (pipeline' : Pipeline.t) (traces' : list pyobj)
    (mode' num_devices' log_steps' total_epochs' : value)
    (max_train' max_eval' system_config' : value) :
  extra_ok s ->
  network s = Live net -> pipeline s = Live pipe -> traces s = Live tr ->
  summary s = Live sm ->
  (forall m d d',
     In m (Network.models net) -> save_model m d = (d', Ok tt) ->
     d' !! "system.json" = d !! "system.json" /\
     (forall p, is_Some (d !! p) -> is_Some (d' !! p)) /\
     exists exts, model_extensions m = Ok exts /\
                  is_Some (d' !! weights_path m (fst exts)) /\
                  is_Some (d' !! optimizer_path m (snd exts))) ->
  save_state getstate save_model s dir0 = (dir1, Ok tt) ->
  (forall m', In m' (Network.models network') ->
     exists m, In m (Network.models net) /\
               model_kind m' = model_kind m /\ model_name m' = model_name m) ->
  (forall m' exts,
     In m' (Network.models network') -> model_extensions m' = Ok exts ->
     is_Some (dir1 !! weights_path m' (fst exts)) ->
     is_Some (dir1 !! optimizer_path m' (snd exts)) ->
     snd (load_model (weights_path m' (fst exts)) dir1 m') = Ok tt) ->
  length traces' = length tr ->
  length (Network.ops network') = length (Network.ops net) ->
  length (Pipeline.ops pipeline') = length (Pipeline.ops pipe) ->
  (forall k, In k (dict_keys (Pipeline.data pipe)) ->
             dict_mem k (Pipeline.data pipeline') = true) ->
  (forall path states st o,
     In path ["traces.pkl"; "tops.pkl"; "nops.pkl"] ->
     dir1 !! path = Some (FPickle (VList states)) -> In st states ->
     snd (restore setstate st o) = Ok tt) ->
  (forall states k st o,
     dir1 !! "ds.pkl" = Some (FPickle (VDict states)) -> In (k, st) states ->
     snd (restore setstate st o) = Ok tt) ->
  exists f',
    load_state setstate load_model dir1
      (init network' pipeline' traces' mode' num_devices' log_steps' total_epochs'
            max_train' max_eval' system_config') = (f', Ok tt).
Proof.
  intros Hex Hn Hp Ht Hs Hback Hsave Hmodels Hload Ltr Ltops Lnops Hkeys Hlist Hdict.
  destruct (save_state_files getstate save_model s dir0 dir1) as (j & Hj & Hjson & Hpkl);
    [intros net0 m d d' Hn0 Hin Hm; rewrite Hn in Hn0; injection Hn0 as <-;
     now apply (Hback m d d' Hin Hm) | exact Hsave |].
  rewrite Hs in Hpkl.
  destruct (save_state_blobs getstate save_model s dir0 dir1)
    as (net0 & pipe0 & tr0 & Hn0 & Hp0 & Ht0 & Hfiles & Btr & Btops & Bnops & Bds);
    [intros net0 m d d' Hn0 Hin Hm; rewrite Hn in Hn0; injection Hn0 as <-;
     now apply (Hback m d d' Hin Hm) | exact Hsave |].
  rewrite Hn in Hn0. injection Hn0 as <-. rewrite Hp in Hp0. injection Hp0 as <-.
  rewrite Ht in Ht0. cbn in Ht0. injection Ht0 as <-.
  destruct Btr as (st_tr & Ftr & Str). destruct Btops as (st_to & Fto & Sto).
  destruct Bnops as (st_no & Fno & Sno). destruct Bds as (ds & Fds & Kds).
  set (f := init _ _ _ _ _ _ _ _ _ _).
  destruct (load_attributes_collaborators dir1 j s f net network' pipe pipeline'
              sm (Summary.new VNone system_config') tr traces'
              Hex Hn Hp Hs Ht eq_refl eq_refl eq_refl eq_refl Hj Hjson)
    as (f1 & H1 & N1 & P1 & S1 & T1).
  clearbody f. unfold load_state. unfold bind at 1. rewrite H1.
  destruct f1 as [n1 p1 t1 md nd ls te bi mt me st s1 et gs ei ex].
  cbn in N1, P1, S1, T1. subst n1 p1 s1.
  (* the models *)
  destruct (for_each_mut_ok (_load_model load_model dir1) (Network.models network'))
    as (ms & Hms).
  { intros m' Hin. destruct (Hmodels m' Hin) as (m & Hm & Hkind & Hname).
    destruct (Hfiles m Hm) as (exts & Hx & Hw & Ho).
    assert (Hx' : model_extensions m' = Ok exts)
      by (unfold model_extensions in *; now rewrite Hkind).
    assert (Hw' : weights_path m' (fst exts) = weights_path m (fst exts))
      by (unfold weights_path; now rewrite Hname).
    assert (Ho' : optimizer_path m' (snd exts) = optimizer_path m (snd exts))
      by (unfold optimizer_path; now rewrite Hname).
    apply (load_model_ok load_model dir1 m' exts Hx'); rewrite ?Hw', ?Ho'; try assumption.
    rewrite <- Hw'. apply Hload; rewrite ?Hw', ?Ho'; assumption. }
  unfold bind at 1. unfold load_models at 1.
  unfold bind at 1 2, get at 1, lift_result at 1, network_of at 1, zoom at 1.
  cbn [network Network.models Network.ops]. rewrite Hms. cbn [set_network fst snd].
  record_simpl.
  (* the summary *)
  unfold bind at 1. unfold load_summary at 1. rewrite Hpkl.
  unfold bind at 1 2, summary_object at 1, bind at 1, get at 1, ret at 1,
    lift_result at 1, modify at 1.
  cbn [summary read_pickle]. record_simpl.
  (* the traces *)
  unfold bind at 1. unfold load_traces at 1, zoom at 1. cbn [traces].
  assert (Htr : exists t2, _load_list setstate "traces.pkl" dir1 t1 = (t2, Ok tt)).
  { destruct T1 as [->|(l & -> & Hl)].
    - destruct (load_list_ok setstate "traces.pkl" dir1 st_tr traces' Ftr)
        as (objs' & Hobjs); [congruence | intros x o Hin; apply (Hlist "traces.pkl" st_tr x o); cbn; auto |].
      eauto.
    - exists (Data (VList l)). apply (load_list_data_ok _ _ _ st_tr); congruence. }
  destruct Htr as (t2 & ->). record_simpl.
  (* the tensor ops *)
  unfold bind at 1. unfold load_tensor_ops at 1.
  unfold bind at 1 2, get at 1, lift_result at 1, network_of at 1, zoom at 1.
  cbn [network Network.models Network.ops].
  destruct (load_list_ok setstate "tops.pkl" dir1 st_to (Network.ops network') Fto)
    as (ops' & ->); [congruence | intros x o Hin; apply (Hlist "tops.pkl" st_to x o); cbn; auto |].
  record_simpl.
  (* the numpy ops *)
  unfold bind at 1. unfold load_numpy_ops at 1.
  unfold bind at 1 2, get at 1, lift_result at 1, pipeline_of at 1, zoom at 1.
  cbn [pipeline Pipeline.data Pipeline.ops].
  destruct (load_list_ok setstate "nops.pkl" dir1 st_no (Pipeline.ops pipeline') Fno)
    as (nops' & ->); [congruence | intros x o Hin; apply (Hlist "nops.pkl" st_no x o); cbn; auto |].
  record_simpl.
  (* the datasets *)
  unfold load_datasets.
  unfold bind, get, lift_result, pipeline_of, zoom.
  cbn [pipeline Pipeline.data Pipeline.ops].
  destruct (load_dict_ok setstate "ds.pkl" dir1 ds (Pipeline.data pipeline') Fds)
    as (data' & ->); [intros k Hk; now apply Hkeys, Kds | intros k x o Hin; now apply (Hdict ds k x o Fds) |].
  eauto.
Qed.

(** C1.  Let [save_state] have written the directory for a [System] that
    holds its collaborators, whose mode and counters are scalars and whose
    summary is the metric log [sm]; the backend writes the two artifacts of
    a model and touches no other file.  Take a freshly constructed [System].
    Whenever [load_state] from that directory returns normally, the mode,
    [batch_idx], [global_step] and [epoch_idx] it leaves are those of the
    original, and the summary is [sm].  And it does return normally when the
    collaborators of the fresh [System] have the shape of the saved ones
    (models of the same types and names, as many traces, tensor ops and
    numpy ops, every saved dataset key), the backend loads what it saved and
    the objects accept the states that were saved. *)
Theorem save_then_load_roundtrip
    (getstate : pyobj -> result value) (setstate : value -> M pyobj unit)
    (save_model : Model -> M directory unit)
    (load_model : string -> directory -> M Model unit)
    (s : t) (net : Network.t) (pipe : Pipeline.t) (tr : list pyobj) (sm : Summary.t)
    (dir0 dir1 : directory)
    (network' : Network.t) (pipeline' : Pipeline.t) (traces' : list pyobj)
    (mode' num_devices' log_steps' total_epochs' : value)
    (max_train' max_eval' system_config' : value) :
  extra_ok s ->
  network s = Live net -> pipeline s = Live pipe -> traces s = Live tr ->
  summary s = Live sm ->
  hashable (mode s) = true -> hashable (batch_idx s) = true ->
  hashable (global_step s) = true -> hashable (epoch_idx s) = true ->
  (forall m d d',
     In m (Network.models net) -> save_model m d = (d', Ok tt) ->
     d' !! "system.json" = d !! "system.json" /\
     (forall p, is_Some (d !! p) -> is_Some (d' !! p)) /\
     exists exts, model_extensions m = Ok exts /\
                  is_Some (d' !! weights_path m (fst exts)) /\
                  is_Some (d' !! optimizer_path m (snd exts))) ->
  save_state getstate save_model s dir0 = (dir1, Ok tt) ->
  let fresh := init network' pipeline' traces' mode' num_devices' log_steps'
                    total_epochs' max_train' max_eval' system_config' in
  let same_as_saved f' :=
    mode f' = mode s /\ batch_idx f' = batch_idx s /\
    global_step f' = global_step s /\ epoch_idx f' = epoch_idx s /\
    summary f' = Live sm in
  (forall f', load_state setstate load_model dir1 fresh = (f', Ok tt) ->
              same_as_saved f') /\
  ((forall m', In m' (Network.models network') ->
      exists m, In m (Network.models net) /\
                model_kind m' = model_kind m /\ model_name m' = model_name m) ->
   (forall m' exts,
      In m' (Network.models network') -> model_extensions m' = Ok exts ->
      is_Some (dir1 !! weights_path m' (fst exts)) ->
      is_Some (dir1 !! optimizer_path m' (snd exts)) ->
      snd (load_model (weights_path m' (fst exts)) dir1 m') = Ok tt) ->
   length traces' = length tr ->
   length (Network.ops network') = length (Network.ops net) ->
   length (Pipeline.ops pipeline') = length (Pipeline.ops pipe) ->
   (forall k, In k (dict_keys (Pipeline.data pipe)) ->
              dict_mem k (Pipeline.data pipeline') = true) ->
   (forall path states st o,
      In path ["traces.pkl"; "tops.pkl"; "nops.pkl"] ->
      dir1 !! path = Some (FPickle (VList states)) -> In st states ->
      snd (restore setstate st o) = Ok tt) ->
   (forall states k st o,
      dir1 !! "ds.pkl" = Some (FPickle (VDict states)) -> In (k, st) states ->
      snd (restore setstate st o) = Ok tt) ->
   exists f', load_state setstate load_model dir1 fresh = (f', Ok tt) /\
              same_as_saved f').
Proof.
  intros Hex Hn Hp Ht Hs Hm Hb Hg He Hback Hsave fresh same_as_saved.
  assert (Hif : forall f', load_state setstate load_model dir1 fresh = (f', Ok tt) ->
                           same_as_saved f').
  { intros f' Hload.
    refine (restored_progress getstate setstate save_model load_model s sm dir0 dir1
              network' pipeline' traces' mode' num_devices' log_steps' total_epochs'
              max_train' max_eval' system_config' f' _ Hex Hs Hm Hb Hg He Hsave Hload).
    intros net0 m d d' Hn0 Hin Hsm. rewrite Hn in Hn0. injection Hn0 as <-.
    now apply (Hback m d d' Hin Hsm). }
  split; [exact Hif|].
  intros Hmodels Hload Ltr Ltops Lnops Hkeys Hlist Hdict.
  destruct (load_state_returns getstate setstate save_model load_model s net pipe tr sm
              dir0 dir1 network' pipeline' traces' mode' num_devices' log_steps'
              total_epochs' max_train' max_eval' system_config'
              Hex Hn Hp Ht Hs Hback Hsave Hmodels Hload Ltr Ltops Lnops Hkeys Hlist Hdict)
    as (f' & Hf').
  exists f'. split; [exact Hf' | now apply Hif].
Qed.

(** ** The theorems at work on the example *)

Lemma returned {S A} (p : S * result A) (r : result A) : snd p = r -> p = (fst p, r).
Proof. destruct p. now intros <-. Qed.

(** Three calls after a [reset]: both counters read 2 after the second. *)
Lemma update_counters_count_from_one_witness :
  let s := fst (reset Demo.clock1 (VStr "exp1") VNone (Demo.system 7)) in
  (1 <= 3)%nat /\ (1 <= 2 <= 3)%nat /\
  times 2 update_global_step s = (set_global_step (VInt 2) s, Ok tt) /\
  times 2 update_batch_idx s = (set_batch_idx (VInt 2) s, Ok tt).
Proof.
  intros s.
  assert (H1 : (1 <= 3)%nat) by lia.
  assert (H2 : (1 <= 2 <= 3)%nat) by lia.
  split; [exact H1|]. split; [exact H2|].
  exact (proj2 (proj2 (update_counters_count_from_one
                         Demo.clock1 (VStr "exp1") VNone (Demo.system 7) 3 2 H1 H2))).
Defined.

(** The trained example has its stop flag clear: a second [reset_for_test]
    changes nothing. *)
Lemma reset_for_test_twice_witness :
  truthy (stop_training Demo.trained) = false /\
  reset_for_test Demo.clock2 VNone (fst (reset_for_test Demo.clock1 VNone Demo.trained))
  = reset_for_test Demo.clock1 VNone Demo.trained.
Proof.
  assert (H : truthy (stop_training Demo.trained) = false) by reflexivity.
  split; [exact H|].
  exact (reset_for_test_twice Demo.clock1 Demo.clock2 VNone Demo.trained (or_introl H)).
Defined.

(** One more metric on the trained example lands under step 3 of the
    running mode. *)
Lemma write_summary_records_witness :
  exists sm h',
    summary Demo.trained = Live sm /\
    write_summary (VStr "loss") (VInt 1) Demo.trained
    = (set_summary (Live (Summary.set_history h' sm)) Demo.trained, Ok tt) /\
    Summary.lookup (VStr "train") (VStr "loss") (VInt 3) h' = Some (VInt 1).
Proof.
  eexists.
  destruct (proj1 (write_summary_records (VStr "loss") (VInt 1) Demo.trained _ eq_refl)
              eq_refl eq_refl eq_refl eq_refl) as (h' & Hrun & Hget & _).
  exists h'. split; [reflexivity|]. split; [exact Hrun | exact Hget].
Defined.

(** On the example, a dictionary is a state every object accepts. *)
Lemma demo_restore_dict (d : dict value) (o : pyobj) :
  snd (restore Demo.setstate (VDict d) o) = Ok tt.
Proof.
  assert (Hup : forall fields, snd (dict_update (VDict d) fields) = Ok tt).
  { unfold dict_update, update_with. induction d as [|[k v] d IH]; intros fields;
      [reflexivity|]. cbn. unfold bind, modify. apply IH. }
  unfold restore. destruct o as [v|c fields]; [reflexivity|].
  unfold hasattr_setstate, hasattr_dict, Demo.setstate. specialize (Hup fields).
  destruct (dict_update (VDict d) fields) as [fields' r]. cbn in Hup. subst r.
  now destruct (has_setstate c), (has_dict c).
Qed.

(** The example backend writes the two files of a model and no other. *)
Lemma demo_save_model_files (m : Model) (d d' : directory) :
  In m (Network.models (Demo.network 7)) ->
  Demo.save_model m d = (d', Ok tt) ->
  d' !! "system.json" = d !! "system.json" /\
  (forall p, is_Some (d !! p) -> is_Some (d' !! p)) /\
  exists exts, model_extensions m = Ok exts /\
               is_Some (d' !! weights_path m (fst exts)) /\
               is_Some (d' !! optimizer_path m (snd exts)).
Proof.
  intros [<-|[]]. cbn. unfold bind, write, modify. intros [= <-].
  split; [now rewrite !lookup_insert_ne by discriminate|].
  split; [intros p Hp; now repeat (apply lookup_insert_is_Some'; right)|].
  exists ("pt", "pt"). split; [reflexivity|]. cbn.
  split; [|rewrite lookup_insert_eq; eauto].
  rewrite lookup_insert_ne by discriminate. rewrite lookup_insert_eq. eauto.
Qed.

(** The example checkpoint goes back into a fresh [System] around untrained
    collaborators: [load_state] returns, and step 3, the mode and the metric
    log are there again. *)
Lemma save_then_load_roundtrip_witness :
  save_state Demo.getstate Demo.save_model Demo.trained ∅ = (Demo.checkpoint, Ok tt) /\
  exists f',
    load_state Demo.setstate Demo.load_model Demo.checkpoint (Demo.system 0)
    = (f', Ok tt) /\
    mode f' = VStr "train" /\ batch_idx f' = VNone /\
    global_step f' = VInt 3 /\ epoch_idx f' = VInt 0 /\
    summary f' = summary Demo.trained.
Proof.
  assert (Hsave : save_state Demo.getstate Demo.save_model Demo.trained ∅
                  = (Demo.checkpoint, Ok tt))
    by (unfold Demo.checkpoint; apply returned; vm_compute; reflexivity).
  split; [exact Hsave|].
  refine (proj2 (save_then_load_roundtrip
            Demo.getstate Demo.setstate Demo.save_model Demo.load_model
            Demo.trained (Demo.network 7) (Demo.pipeline 7) [Demo.trace 7] _
            ∅ Demo.checkpoint
            (Demo.network 0) (Demo.pipeline 0) [Demo.trace 0]
            VNone (VInt 1) (VInt 100) (VInt 5) VNone VNone VNone
            _ eq_refl eq_refl eq_refl eq_refl eq_refl eq_refl eq_refl eq_refl
            demo_save_model_files Hsave) _ _ eq_refl eq_refl eq_refl _ _ _).
  - intros k n [].
  - intros m' [<-|[]]. eexists. split; [now left|]. split; reflexivity.
  - intros m' exts [<-|[]] [= <-] _ _. vm_compute. reflexivity.
  - intros k [<-|[<-|[]]]; reflexivity.
  - intros path states st o [<-|[<-|[<-|[]]]] Hf Hin;
      vm_compute in Hf; injection Hf as <-; destruct Hin as [<-|[]];
      apply demo_restore_dict.
  - intros states k st o Hf Hin.
    vm_compute in Hf. injection Hf as <-. destruct Hin as [[= <- <-]|[]].
    apply demo_restore_dict.
Defined.



(** The attribute file that names the traces: the merge returns, and
    [self.traces] is the list of the file. *)
Lemma load_attributes_overwrites_witness :
  exists s',
    load_attributes Demo.checkpoint_naming_traces (Demo.system 0) = (s', Ok tt) /\
    traces s' = Data (VList [VNone]) /\
    getattr (VStr "note") s' = Some (AValue (VStr "x")).
Proof.
  assert (Hf : Demo.checkpoint_naming_traces !! "system.json"
               = Some (FJson (JObj [("traces", JArr [JNull]); ("note", JStr "x")])))
    by (vm_compute; reflexivity).
  destruct (load_attributes_overwrites Demo.checkpoint_naming_traces _ (Demo.system 0) Hf)
    as (d & s' & Hd & Hrun & Hsome & _ & _ & _ & Htraces).
  injection Hd as <-.
  exists s'. split; [exact Hrun|]. split.
  - apply Htraces. reflexivity.
  - apply Hsome. reflexivity.
Defined.


(** The example checkpoint without its optimizer file, and a model of a
    type no backend knows. *)
Lemma load_model_checks_witness :
  let m := Demo.model VNone VNone in
  _load_model Demo.load_model Demo.checkpoint_without_optimizer m
  = (m, Raise (FileNotFoundError (ModelOptimizerFile "lenet_opt.pt"))) /\
  _load_model Demo.load_model Demo.checkpoint m
  = Demo.load_model "lenet.pt" Demo.checkpoint m /\
  let other := {| model_kind := OtherModel; model_name := "lenet";
                  weights := VNone; optimizer := VNone |} in
  _load_model Demo.load_model Demo.checkpoint other
  = (other, Raise (ValueError UnknownModelType)).
Proof.
  intros m. split; [|split].
  - destruct (load_model_checks Demo.load_model Demo.checkpoint_without_optimizer m)
      as (_ & H & _).
    destruct (H "pt" "pt" eq_refl) as (_ & Hopt & _).
    apply Hopt; [eexists|]; vm_compute; reflexivity.
  - destruct (load_model_checks Demo.load_model Demo.checkpoint m) as (_ & H & _).
    destruct (H "pt" "pt" eq_refl) as (_ & _ & Hboth).
    apply Hboth; eexists; vm_compute; reflexivity.
  - intros other.
    exact (proj1 (load_model_checks Demo.load_model Demo.checkpoint other) eq_refl).
Defined.


(** * Further properties *)

(** ** The metric log under [write_summary] *)

Lemma dict_get_alter_other {V} (f : V -> V) (k k' : value) (d : dict V) :
  key_eqb k' k = false -> dict_get k (dict_alter f k' d) = dict_get k d.
Proof.
  intros Hne. induction d as [|[k0 v0] d IH]; cbn; [reflexivity|].
  destruct (key_eqb k0 k') eqn:E0; cbn.
  - destruct (key_eqb k0 k) eqn:E1; [|reflexivity].
    rewrite key_eqb_sym in E0. now rewrite (key_eqb_trans _ _ _ E0 E1) in Hne.
  - destruct (key_eqb k0 k); [reflexivity | exact IH].
Qed.

Lemma dict_get_vivify_other {V} (fresh : V) (k k' : value) (d : dict V) :
  key_eqb k' k = false -> dict_get k (vivify k' fresh d) = dict_get k d.
Proof.
  intros Hne. unfold vivify. destruct (dict_get k' d); [reflexivity|].
  now apply dict_get_set_other.
Qed.

Lemma dict_get_vivify_eq {V} (fresh : V) (k : value) (d : dict V) :
  hashable k = true ->
  dict_get k (vivify k fresh d)
  = Some match dict_get k d with Some x => x | None => fresh end.
Proof.
  intros Hk. unfold vivify. destruct (dict_get k d) eqn:E; [exact E|].
  now apply dict_get_set_same.
Qed.

Lemma dict_get_set_cases {V} (k k' : value) (v : V) (d : dict V) :
  hashable k' = true ->
  dict_get k (dict_set k' v d) = if key_eqb k' k then Some v else dict_get k d.
Proof.
  intros Hk. destruct (key_eqb k' k) eqn:E.
  - now apply dict_get_set_eqv.
  - now apply dict_get_set_other.
Qed.

(** Every entry of the history after [history[mode][key][step] = v]. *)
Lemma history_store_lookup_all (mode key step v : value) (h : dict (dict (dict value))) :
  hashable mode = true -> hashable key = true -> hashable step = true ->
  exists h', history_store mode key step v h = (h', Ok tt) /\
    forall m k st,
      Summary.lookup m k st h' =
      if key_eqb mode m && key_eqb key k && key_eqb step st
      then Some v else Summary.lookup m k st h.
Proof.
  intros Hm Hk Hs. unfold history_store, bind, modify, raise.
  rewrite Hm, Hk, Hs. cbn [negb]. eexists. split; [reflexivity|].
  intros m k st. unfold Summary.lookup. unfold dict in *.
  destruct (key_eqb mode m) eqn:Em; cbn [andb].
  2:{ now rewrite !dict_get_alter_other, dict_get_vivify_other by assumption. }
  rewrite !(dict_get_eqv m mode) by assumption.
  rewrite !dict_get_alter_same, dict_get_vivify_eq by assumption.
  cbn [fmap option_fmap option_map].
  destruct (key_eqb key k) eqn:Ek; cbn [andb].
  2:{ rewrite dict_get_alter_other, dict_get_vivify_other by assumption.
      now destruct (dict_get mode h). }
  rewrite !(dict_get_eqv k key) by assumption.
  rewrite dict_get_alter_same, dict_get_vivify_eq by assumption.
  cbn [fmap option_fmap option_map].
  rewrite dict_get_set_cases by assumption.
  destruct (key_eqb step st); [reflexivity|].
  destruct (dict_get mode h) as [by_key|]; [|reflexivity].
  rewrite (dict_get_eqv k key by_key) by assumption.
  now destruct (dict_get key by_key).
Qed.

Lemma summary_set_summary (x : slot Summary.t) (s : t) : summary (set_summary x s) = x.
Proof. now destruct s. Qed.

(** X1.  The whole metric log after [write_summary] on a named experiment:
    the entry at [mode][key][global_step or 0] is the new value, whether or
    not there was one before, and every other entry is what it was.  The
    call returns normally and changes nothing but the summary. *)
Theorem write_summary_keeps_other_entries (key v : value) (s : t) (sm : Summary.t) :
  summary s = Live sm -> Summary.bool sm = true ->
  hashable (mode s) = true -> hashable key = true -> hashable (global_step s) = true ->
  let step := py_or (global_step s) (VInt 0) in
  exists h',
    write_summary key v s = (set_summary (Live (Summary.set_history h' sm)) s, Ok tt) /\
    forall m k st,
      metric m k st (fst (write_summary key v s)) =
      if key_eqb (mode s) m && key_eqb key k && key_eqb step st
      then Some v else metric m k st s.
Proof.
  intros Hsm Hb Hm Hk Hg step.
  assert (Hstep : hashable step = true).
  { unfold step, py_or. now destruct (truthy (global_step s)). }
  destruct (history_store_lookup_all (mode s) key step v (Summary.history sm) Hm Hk Hstep)
    as (h' & Hrun & Hall).
  assert (Hw : write_summary key v s
               = (set_summary (Live (Summary.set_history h' sm)) s, Ok tt)).
  { unfold write_summary, bind, get, zoom. fold step. now rewrite Hsm, Hb, Hrun. }
  exists h'. split; [exact Hw|].
  intros m k st. rewrite Hw. unfold metric. cbn [fst].
  rewrite summary_set_summary, Hsm. apply Hall.
Qed.

(** ** A run from [reset] to the first metric *)

Lemma write_summary_named (key v : value) (s : t) (sm : Summary.t) :
  summary s = Live sm -> Summary.bool sm = true ->
  hashable (mode s) = true -> hashable key = true -> hashable (global_step s) = true ->
  snd (write_summary key v s) = Ok tt /\
  metric (mode s) key (py_or (global_step s) (VInt 0)) (fst (write_summary key v s))
  = Some v.
Proof.
  intros Hsm Hb Hm Hk Hg.
  assert (Hstep : hashable (py_or (global_step s) (VInt 0)) = true).
  { unfold py_or. now destruct (truthy (global_step s)). }
  destruct (history_store_lookup (mode s) key (py_or (global_step s) (VInt 0)) v
              (Summary.history sm) Hm Hk Hstep) as (h' & Hrun & Hget).
  unfold write_summary, bind, get, zoom. rewrite Hsm, Hb, Hrun. cbn [fst snd].
  split; [reflexivity|]. unfold metric. now rewrite summary_set_summary.
Qed.

Lemma write_summary_anonymous (key v : value) (s : t) (sm : Summary.t) :
  summary s = Live sm -> Summary.bool sm = false -> write_summary key v s = (s, Ok tt).
Proof. intros Hsm Hb. unfold write_summary, bind, get, ret. now rewrite Hsm, Hb. Qed.

(** X2.  [reset(name, config)], then [k] calls of [update_global_step], then
    [write_summary(key, v)]: the three return normally and [global_step] is
    [k] ([None] when [k] is 0).  If the name is non-empty the metric log holds
    [v] at ["train"][key][k], so under step 0 when no step was taken; if the
    name is empty or [None] nothing is recorded: the [System] is as the
    counter updates left it. *)
Theorem reset_steps_write
    (now : datetime) (summary_name system_config key v : value) (k : nat) (s0 : t) :
  hashable key = true ->
  let steps := (do _ <- reset now summary_name system_config in
                times k update_global_step) in
  let run := (do _ <- steps in write_summary key v) in
  snd (run s0) = Ok tt /\
  global_step (fst (run s0)) = (if k is O then VNone else VInt (Z.of_nat k)) /\
  (truthy summary_name = true ->
   metric (VStr "train") key (VInt (Z.of_nat k)) (fst (run s0)) = Some v) /\
  (truthy summary_name = false -> fst (run s0) = fst (steps s0)).
Proof.
  intros Hk steps run.
  assert (Hsteps : exists s2,
            steps s0 = (s2, Ok tt) /\
            summary s2 = Live (Summary.new summary_name system_config) /\
            mode s2 = VStr "train" /\
            global_step s2 = (if k is O then VNone else VInt (Z.of_nat k)) /\
            py_or (global_step s2) (VInt 0) = VInt (Z.of_nat k)).
  { unfold steps. unfold bind at 1. rewrite reset_unfold.
    set (s1 := mk _ _ _ _ _ _ _ _ _ _ _ _ _ _ _ _).
    destruct k as [|k].
    - exists s1. repeat split.
    - exists (set_global_step (VInt (Z.of_nat (S k))) s1).
      rewrite times_update_global_step_none by reflexivity. repeat split. }
  destruct Hsteps as (s2 & H2 & Hsm & Hmode & Hgs & Hstep).
  assert (Hg : hashable (global_step s2) = true) by (rewrite Hgs; now destruct k).
  assert (Hrun : run s0 = write_summary key v s2)
    by (unfold run; unfold bind at 1; now rewrite H2).
  rewrite Hrun, H2. cbn [fst].
  destruct (truthy summary_name) eqn:Hname.
  - destruct (write_summary_named key v s2 _ Hsm Hname) as (Hok & Hget);
      [now rewrite Hmode | exact Hk | exact Hg |].
    rewrite Hmode, Hstep in Hget.
    split; [exact Hok|]. split; [|split; [intros _; exact Hget | discriminate]].
    clear Hget Hok. unfold write_summary, bind, get, zoom.
    rewrite Hsm. change (Summary.bool (Summary.new summary_name system_config))
      with (truthy summary_name). rewrite Hname.
    destruct (history_store _ _ _ _ _) as [h' r]. cbn [fst].
    rewrite <- Hgs. now destruct s2.
  - rewrite (write_summary_anonymous key v s2 _ Hsm Hname). cbn [fst snd].
    split; [reflexivity|]. split; [exact Hgs|]. split; [discriminate | reflexivity].
Qed.

(** ** What [reset_for_test] keeps *)



(** X4.  The timestamp of the experiment.  [reset] stamps the clock, and a
    [reset_for_test] after it, at any later time, keeps that stamp; a
    [System] that was never reset is stamped by [reset_for_test] itself. *)
Theorem experiment_time_survives_test
    (now1 now2 : datetime) (name1 name2 config : value) (s : t)
    (network' : Network.t) (pipeline' : Pipeline.t) (traces' : list pyobj)
    (mode' num_devices' log_steps' total_epochs' max_train' max_eval' config' : value) :
  experiment_time
    (fst (reset_for_test now2 name2 (fst (reset now1 name1 config s))))
  = VStr (strftime now1) /\
  experiment_time
    (fst (reset_for_test now2 name2
            (init network' pipeline' traces' mode' num_devices' log_steps'
                  total_epochs' max_train' max_eval' config')))
  = VStr (strftime now2).
Proof.
  split.
  - rewrite reset_unfold, reset_for_test_unfold. cbn [fst summary experiment_time].
    unfold set_summary. cbn [experiment_time].
    unfold py_or. now rewrite strftime_truthy.
  - rewrite reset_for_test_unfold. unfold init. cbn [fst summary experiment_time].
    unfold set_summary. cbn [experiment_time]. reflexivity.
Qed.

(** ** Files that are not there *)

(** X5.  A checkpoint directory without [system.json] makes [load_state] raise
    [FileNotFoundError] with the [System], collaborators included, exactly as
    it was.  A missing [summary.pkl] is found only after the attribute file
    was merged and the models were loaded, and both stay that way.  A missing
    blob of a list or of the datasets makes [_load_list] and [_load_dict]
    raise the [FileNotFoundError] of the summary file for that path, with
    the objects in memory as they were. *)
Theorem load_state_missing_files
    (setstate : value -> M pyobj unit)
    (load_model : string -> directory -> M Model unit)
    (load_dir : directory) :
  (load_dir !! "system.json" = None ->
   forall s, load_state setstate load_model load_dir s
             = (s, Raise (FileNotFoundError (SystemSummaryFile "system.json")))) /\
  (load_dir !! "summary.pkl" = None ->
   forall s s1,
     run_steps [load_attributes load_dir; load_models load_model load_dir] s
     = (s1, Ok tt) ->
     load_state setstate load_model load_dir s
     = (s1, Raise (FileNotFoundError (SummaryFile "summary.pkl")))) /\
  (forall state_path,
     load_dir !! state_path = None ->
     (forall objs : slot (list pyobj),
        _load_list setstate state_path load_dir objs
        = (objs, Raise (FileNotFoundError (SummaryFile state_path)))) /\
     (forall data : dict pyobj,
        _load_dict setstate state_path load_dir data
        = (data, Raise (FileNotFoundError (SummaryFile state_path))))).
Proof.
  split; [|split].
  - intros Hf s. unfold load_state, bind, load_attributes. now rewrite Hf.
  - intros Hf s s1 Hpre. rewrite load_state_run_steps.
    refine (run_steps_fail _ _ _ _ _ _ _ Hpre _).
    unfold load_summary. now rewrite Hf.
  - intros path Hf. split; intros x.
    + unfold _load_list. now rewrite Hf.
    + unfold _load_dict. now rewrite Hf.
Qed.

(** ** How one object takes its state *)

Lemma dict_update_dict (d fields : dict value) :
  dict_update (VDict d) fields
  = (fold_left (fun f kv => dict_set (fst kv) (snd kv) f) d fields, Ok tt).
Proof.
  unfold dict_update, update_with. revert fields.
  induction d as [|[k v] d IH]; intros fields; [reflexivity|].
  cbn. unfold bind, modify. apply IH.
Qed.

(** X6.  What the body of the restore loops does to one object.  A plain value
    and an instance that answers to neither hook are left alone, whatever
    the state.  An instance with a field bag and no [__setstate__] gets the
    persisted dictionary merged into its fields: a persisted field replaces
    the field of that name, the other fields stay; and a state that cannot be
    iterated raises [TypeError] and leaves the fields alone. *)
Theorem restore_merges_field_bag
    (setstate : value -> M pyobj unit) (c : objclass) (fields : dict value) :
  (forall state v, restore setstate state (Plain v) = (Plain v, Ok tt)) /\
  (has_setstate c = false -> has_dict c = false ->
   forall state, restore setstate state (Inst c fields) = (Inst c fields, Ok tt)) /\
  (has_setstate c = false -> has_dict c = true ->
   (forall d, unique_keys d ->
      exists fields',
        restore setstate (VDict d) (Inst c fields) = (Inst c fields', Ok tt) /\
        forall k, dict_get k fields' =
                  match dict_get k d with
                  | Some v => Some v
                  | None => dict_get k fields
                  end) /\
   (forall state, py_iter state = Raise TypeError ->
      restore setstate state (Inst c fields) = (Inst c fields, Raise TypeError))).
Proof.
  split; [reflexivity|]. split.
  - intros Hs Hd state. unfold restore, hasattr_setstate, hasattr_dict.
    now rewrite Hs, Hd.
  - intros Hs Hd. split.
    + intros d Hu. eexists. split.
      * unfold restore, hasattr_setstate, hasattr_dict.
        rewrite Hs, Hd, dict_update_dict. reflexivity.
      * intros k. rewrite dict_get_fold_set. now rewrite unique_keys_rev.
    + intros state Hit. unfold restore, hasattr_setstate, hasattr_dict.
      rewrite Hs, Hd. destruct state; try discriminate; reflexivity.
Qed.

(** ** Position by position *)



(** ** The loop over the models *)



(** ** What [save_state] pickles *)

Lemma collect_Forall2 {A B} (f : A -> result B) (xs : list A) (ys : list B) :
  collect f xs = Ok ys -> Forall2 (fun x y => f x = Ok y) xs ys.
Proof.
  revert ys. induction xs as [|x xs IH]; intros ys; cbn.
  - intros [= <-]. constructor.
  - destruct (f x) as [y|] eqn:Hx; [|discriminate].
    destruct (collect f xs) as [ys'|]; [|discriminate].
    intros [= <-]. constructor; [exact Hx | now apply IH].
Qed.

Lemma save_list_states (getstate : pyobj -> result value) (path : string)
    (objs : result (list pyobj)) (d d' : directory) :
  save_list getstate path objs d = (d', Ok tt) ->
  exists l states,
    objs = Ok l /\
    Forall2 (fun o x => getstate_or_empty getstate o = Ok x) l states /\
    d' = <[path := FPickle (VList states)]> (<[path := FEmpty]> d).
Proof.
  unfold save_list, bind, write, modify, lift_result.
  destruct objs as [l|e]; [|discriminate].
  destruct (collect _ l) as [states|e] eqn:Hc; [|discriminate].
  intros [= <-]. exists l, states. repeat split. now apply collect_Forall2.
Qed.

Lemma dataset_states_entries (getstate : pyobj -> result value)
    (data : dict pyobj) (ds : dict value) :
  dataset_states getstate data = Ok ds ->
  forall k x,
    In (k, x) ds <->
    exists o, In (k, o) data /\ hasattr_getstate o = true /\ getstate o = Ok x.
Proof.
  revert ds. induction data as [|[k0 o0] data IH]; intros ds; cbn.
  - intros [= <-] k x. split; [intros [] | intros (o & [] & _)].
  - destruct (hasattr_getstate o0) eqn:Hh.
    + destruct (getstate o0) as [x0|] eqn:Hg; [|discriminate].
      destruct (dataset_states getstate data) as [d|]; [|discriminate].
      intros [= <-] k x. specialize (IH d eq_refl k x). cbn. rewrite IH. split.
      * intros [[= <- <-]|(o & Hin & Ho)]; [exists o0; auto | exists o; auto].
      * intros (o & [[= <- <-]|Hin] & Ho & Hx); [left; congruence | right; eauto].
    + intros Hds k x. rewrite (IH ds Hds k x). split.
      * intros (o & Hin & Ho). exists o. auto.
      * intros (o & [[= <- <-]|Hin] & Ho & Hx); [congruence | eauto].
Qed.

(** X9.  What a [save_state] that returned has pickled.  The blobs of the
    traces, of the tensor ops and of the numpy ops are lists with one entry
    per object, in order: the object's [__getstate__()] if it has one, the
    empty dict if not.  The blob of the datasets is a dict that has an entry,
    the dataset's [__getstate__()], exactly for the datasets that have one:
    the others are left out.  The summary is pickled whole. *)
Theorem save_state_blob_shapes
    (getstate : pyobj -> result value) (save_model : Model -> M directory unit)
    (s : t) (dir0 dir1 : directory) :
  save_state getstate save_model s dir0 = (dir1, Ok tt) ->
  exists net pipe tr st_tr st_to st_no ds,
    network s = Live net /\ pipeline s = Live pipe /\
    sequence_of (traces s) = Ok tr /\
    let entry o x :=
      if hasattr_getstate o then getstate o = Ok x else x = VDict [] in
    dir1 !! "traces.pkl" = Some (FPickle (VList st_tr)) /\ Forall2 entry tr st_tr /\
    dir1 !! "tops.pkl" = Some (FPickle (VList st_to)) /\
    Forall2 entry (Network.ops net) st_to /\
    dir1 !! "nops.pkl" = Some (FPickle (VList st_no)) /\
    Forall2 entry (Pipeline.ops pipe) st_no /\
    dir1 !! "ds.pkl" = Some (FPickle (VDict ds)) /\
    (forall k x, In (k, x) ds <->
       exists o, In (k, o) (Pipeline.data pipe) /\
                 hasattr_getstate o = true /\ getstate o = Ok x) /\
    forall sm, summary s = Live sm -> dir1 !! "summary.pkl" = Some (FPickleSummary sm).
Proof.
  unfold save_state.
  destruct (state_json _) as [j|] eqn:Hj.
  2:{ unfold bind, write, modify, raise. discriminate. }
  unfold bind at 1 2. unfold write at 1 2, modify.
  unfold bind at 1. unfold lift_result at 1.
  unfold network_of, pipeline_of.
  destruct (network s) as [net|v] eqn:Hnet; [|discriminate].
  unfold bind at 1.
  destruct (for_each (Network.models net) save_model _) as [d2 [[]|e]]; [|discriminate].
  unfold bind at 1. unfold write at 1, modify.
  unfold bind at 1.
  destruct (save_list getstate "traces.pkl" _ _) as [d3 [[]|e]] eqn:H3; [|discriminate].
  unfold bind at 1.
  destruct (save_list getstate "tops.pkl" _ _) as [d4 [[]|e]] eqn:H4; [|discriminate].
  unfold bind at 1.
  destruct (save_list getstate "nops.pkl" _ _) as [d5 [[]|e]] eqn:H5; [|discriminate].
  unfold bind, write, modify, lift_result.
  destruct (pipeline s) as [pipe|v] eqn:Hpipe; [|discriminate].
  destruct (dataset_states _ _) as [ds|e] eqn:Hds; [|discriminate].
  intros [= <-].
  apply save_list_states in H3 as (tr & st3 & Htr & F3 & ->).
  apply save_list_states in H4 as (l4 & st4 & [= <-] & F4 & ->).
  apply save_list_states in H5 as (l5 & st5 & [= <-] & F5 & ->).
  assert (Hentry : forall l st,
            Forall2 (fun o x => getstate_or_empty getstate o = Ok x) l st ->
            Forall2 (fun o x => if hasattr_getstate o then getstate o = Ok x
                                else x = VDict []) l st).
  { intros l st F. eapply Forall2_impl; [exact F|].
    intros o x. cbv beta. unfold getstate_or_empty.
    destruct (hasattr_getstate o); [trivial | congruence]. }
  exists net, pipe, tr, st3, st4, st5, ds. cbv zeta.
  repeat split; try reflexivity; try assumption; try (now apply Hentry).
  - rewrite !lookup_insert_ne by discriminate. now rewrite lookup_insert_eq.
  - rewrite !lookup_insert_ne by discriminate. now rewrite lookup_insert_eq.
  - rewrite !lookup_insert_ne by discriminate. now rewrite lookup_insert_eq.
  - now rewrite lookup_insert_eq.
  - now apply dataset_states_entries.
  - now apply dataset_states_entries.
  - intros sm [= ->]. rewrite !lookup_insert_ne by discriminate.
    now rewrite lookup_insert_eq.
Qed.

(** ** A save that a trace interrupts *)

Lemma collect_raise {A B} (f : A -> result B) (pre : list A) (x : A)
    (post : list A) (e : exn) :
  Forall (fun y => exists b, f y = Ok b) pre -> f x = Raise e ->
  collect f (pre ++ x :: post)%list = Raise e.
Proof.
  intros Hpre Hx. induction Hpre as [|y pre [b Hy] _ IH]; cbn.
  - now rewrite Hx.
  - now rewrite Hy, IH.
Qed.

(** X10.  A save that a trace interrupts.  Let the attributes be serializable
    and the backend save every model.  If the [__getstate__] of a trace
    raises, the traces before it having given their states, then [save_state]
    raises that exception; [system.json] and [summary.pkl] are written in
    full by then, but [traces.pkl] is left as the empty file that [open]
    created, and reading it back with [_load_list] raises [EOFError] and
    restores nothing. *)
Theorem save_state_interrupted_by_trace
    (getstate : pyobj -> result value) (save_model : Model -> M directory unit)
    (setstate : value -> M pyobj unit)
    (s : t) (net : Network.t) (j : list (string * json))
    (pre : list pyobj) (o : pyobj) (post : list pyobj) (e : exn)
    (dir0 : directory) :
  state_json (List.filter (fun kv => is_restorable (snd kv)) (items s)) = Some j ->
  network s = Live net ->
  (forall d, snd (for_each (Network.models net) save_model d) = Ok tt) ->
  (forall d, fst (for_each (Network.models net) save_model d) !! "system.json"
             = d !! "system.json") ->
  traces s = Live (pre ++ o :: post)%list ->
  Forall (fun o' => exists x, getstate_or_empty getstate o' = Ok x) pre ->
  hasattr_getstate o = true -> getstate o = Raise e ->
  let dir1 := fst (save_state getstate save_model s dir0) in
  snd (save_state getstate save_model s dir0) = Raise e /\
  dir1 !! "system.json" = Some (FJson (JObj j)) /\
  dir1 !! "summary.pkl"
  = Some match summary s with
         | Live sm => FPickleSummary sm
         | Data v => FPickle v
         end /\
  dir1 !! "traces.pkl" = Some FEmpty /\
  forall objs, _load_list setstate "traces.pkl" dir1 objs = (objs, Raise EOFError).
Proof.
  intros Hj Hnet Hok Hkeep Htr Hpre Hh Hg dir1.
  assert (Hc : collect (getstate_or_empty getstate) (pre ++ o :: post)%list = Raise e).
  { apply collect_raise; [exact Hpre|]. unfold getstate_or_empty. now rewrite Hh. }
  assert (Hrun : save_state getstate save_model s dir0 =
    (<["traces.pkl" := FEmpty]>
       (<["summary.pkl" := match summary s with
                           | Live sm => FPickleSummary sm
                           | Data v => FPickle v
                           end]>
          (fst (for_each (Network.models net) save_model
                  (<["system.json" := FJson (JObj j)]>
                     (<["system.json" := FEmpty]> dir0))))), Raise e)).
  { unfold save_state. rewrite Hj.
    unfold bind at 1 2. unfold write at 1 2, modify.
    unfold bind at 1. unfold lift_result at 1. unfold network_of. rewrite Hnet.
    unfold bind at 1.
    pose proof (Hok (<["system.json" := FJson (JObj j)]>
                       (<["system.json" := FEmpty]> dir0))) as Hm.
    destruct (for_each (Network.models net) save_model _) as [d2 r]. cbn in Hm.
    subst r. unfold bind at 1. unfold write at 1, modify.
    unfold bind at 1. unfold save_list at 1. rewrite Htr. cbn [sequence_of].
    unfold bind, write, modify, lift_result. rewrite Hc. reflexivity. }
  subst dir1. rewrite Hrun. cbn [fst snd].
  assert (Hempty : forall d : directory,
            (<["traces.pkl" := FEmpty]> d) !! "traces.pkl" = Some FEmpty).
  { intros d. apply lookup_insert_eq. }
  split; [reflexivity|]. split; [|split; [|split]].
  - rewrite !lookup_insert_ne by discriminate.
    rewrite Hkeep. now rewrite lookup_insert_eq.
  - rewrite lookup_insert_ne by discriminate. now rewrite lookup_insert_eq.
  - apply Hempty.
  - intros objs. unfold _load_list. rewrite Hempty. reflexivity.
Qed.

(** ** A restored run goes on counting *)

(** X11.  A restored run goes on where the saved one stopped.  Let [save_state]
    write a [System] whose [global_step] is the integer [n], and let
    [load_state] of that directory into a freshly constructed [System]
    return.  Then [k] further calls of [update_global_step] leave
    [global_step] at [n + k], and the restored [System] reads the same metric
    log as the saved one. *)
Theorem restored_run_goes_on_counting
    (getstate : pyobj -> result value) (setstate : value -> M pyobj unit)
    (save_model : Model -> M directory unit)
    (load_model : string -> directory -> M Model unit)
    (s : t) (sm : Summary.t) (n : Z) (dir0 dir1 : directory)
    (network' : Network.t) (pipeline' : Pipeline.t) (traces' : list pyobj)
    (mode' num_devices' log_steps' total_epochs' : value)
    (max_train' max_eval' system_config' : value) (f' : t) :
  (forall net m d d',
     network s = Live net -> In m (Network.models net) ->
     save_model m d = (d', Ok tt) -> d' !! "system.json" = d !! "system.json") ->
  extra_ok s ->
  summary s = Live sm ->
  hashable (mode s) = true -> hashable (batch_idx s) = true ->
  hashable (epoch_idx s) = true ->
  global_step s = VInt n ->
  save_state getstate save_model s dir0 = (dir1, Ok tt) ->
  load_state setstate load_model dir1
    (init network' pipeline' traces' mode' num_devices' log_steps' total_epochs'
          max_train' max_eval' system_config') = (f', Ok tt) ->
  (forall k, times k update_global_step f'
             = (set_global_step (VInt (n + Z.of_nat k)) f', Ok tt)) /\
  (forall m key st, metric m key st f' = metric m key st s).
Proof.
  intros Hkeep Hex Hsm Hm Hb He Hg Hsave Hload.
  assert (Hgh : hashable (global_step s) = true) by now rewrite Hg.
  destruct (restored_progress getstate setstate save_model load_model s sm dir0 dir1
              network' pipeline' traces' mode' num_devices' log_steps' total_epochs'
              max_train' max_eval' system_config' f'
              Hkeep Hex Hsm Hm Hb Hgh He Hsave Hload)
    as (_ & _ & Hg' & _ & Hsm').
  split.
  - intros k. apply times_update_global_step. congruence.
  - intros m key st. unfold metric. now rewrite Hsm', Hsm.
Qed.

(** ** [load_state] is not all or nothing *)

Lemma run_steps_invariant {S A} (f : S -> A) (steps : list (M S unit)) (s : S) :
  (forall step s, In step steps -> f (fst (step s)) = f s) ->
  f (fst (run_steps steps s)) = f s.
Proof.
  revert s. induction steps as [|step steps IH]; intros s Hinv; [reflexivity|].
  unfold run_steps. cbn [for_each]. unfold bind.
  pose proof (Hinv step s (or_introl eq_refl)) as Hs.
  destruct (step s) as [s1 [[]|e]]; cbn [fst] in *; [|exact Hs].
  rewrite <- Hs. apply IH. intros step' s' Hin. apply Hinv. now right.
Qed.

Lemma load_models_plain (load_model : string -> directory -> M Model unit)
    (dir : directory) (s : t) :
  plain_attributes (fst (load_models load_model dir s)) = plain_attributes s.
Proof.
  unfold load_models, bind, get, lift_result, network_of, zoom.
  destruct s as [net pipe tr md nd ls te bi mt me st sm et gs ei ex]; cbn.
  destruct net as [net|v]; cbn; [|reflexivity].
  now destruct (for_each_mut _ _).
Qed.

Lemma load_summary_plain (dir : directory) (s : t) :
  plain_attributes (fst (load_summary dir s)) = plain_attributes s.
Proof.
  unfold load_summary. destruct (dir !! "summary.pkl") as [f|]; [|reflexivity].
  unfold bind, summary_object, get, lift_result, modify, ret, raise.
  destruct s as [net pipe tr md nd ls te bi mt me st [sm0|v] et gs ei ex]; cbn;
    [|reflexivity].
  destruct (read_pickle f) as [[v|sm]|e]; reflexivity.
Qed.

Lemma load_traces_plain (setstate : value -> M pyobj unit) (dir : directory) (s : t) :
  plain_attributes (fst (load_traces setstate dir s)) = plain_attributes s.
Proof.
  unfold load_traces, zoom.
  destruct s as [net pipe tr md nd ls te bi mt me st sm et gs ei ex]; cbn.
  now destruct (_load_list _ _ _ _).
Qed.

Lemma load_tensor_ops_plain (setstate : value -> M pyobj unit) (dir : directory) (s : t) :
  plain_attributes (fst (load_tensor_ops setstate dir s)) = plain_attributes s.
Proof.
  unfold load_tensor_ops, bind, get, lift_result, network_of, zoom.
  destruct s as [net pipe tr md nd ls te bi mt me st sm et gs ei ex]; cbn.
  destruct net as [net|v]; cbn; [|reflexivity].
  now destruct (_load_list _ _ _ _) as [[ops|v] r].
Qed.

Lemma load_numpy_ops_plain (setstate : value -> M pyobj unit) (dir : directory) (s : t) :
  plain_attributes (fst (load_numpy_ops setstate dir s)) = plain_attributes s.
Proof.
  unfold load_numpy_ops, bind, get, lift_result, pipeline_of, zoom.
  destruct s as [net pipe tr md nd ls te bi mt me st sm et gs ei ex]; cbn.
  destruct pipe as [pipe|v]; cbn; [|reflexivity].
  now destruct (_load_list _ _ _ _) as [[ops|v] r].
Qed.

Lemma load_datasets_plain (setstate : value -> M pyobj unit) (dir : directory) (s : t) :
  plain_attributes (fst (load_datasets setstate dir s)) = plain_attributes s.
Proof.
  unfold load_datasets, bind, get, lift_result, pipeline_of, zoom.
  destruct s as [net pipe tr md nd ls te bi mt me st sm et gs ei ex]; cbn.
  destruct pipe as [pipe|v]; cbn; [|reflexivity].
  now destruct (_load_dict _ _ _ _).
Qed.

(** An attribute that is not a collaborator is read off the plain part. *)
Lemma getattr_plain (k : value) (a b : t) :
  plain_attributes a = plain_attributes b -> collaborator_name k = false ->
  getattr k a = getattr k b.
Proof.
  unfold collaborator_name. cbn [existsb]. rewrite !orb_false_iff.
  intros Heq (Hn & Hp & Ht & Hs & _).
  destruct a as [net pipe tr md nd ls te bi mt me st sm et gs ei ex].
  destruct b as [net' pipe' tr' md' nd' ls' te' bi' mt' me' st' sm' et' gs' ei' ex'].
  unfold plain_attributes in Heq. cbn in Heq. injection Heq as <- <- <- <- <- <- <- <- <- <- <- <-.
  unfold getattr, items. cbn [network pipeline traces mode num_devices log_steps
    total_epochs batch_idx max_train_steps_per_epoch max_eval_steps_per_epoch
    stop_training summary experiment_time global_step epoch_idx extra
    app dict_get]. now rewrite Hn, Hp, Ht, Hs.
Qed.

(** X12.  [load_state] is not all or nothing.  Once [system.json] holds a JSON
    object its keys are merged first, and no later step touches an attribute
    other than the collaborators (a hook of a collaborator acts on the object
    it is called on): whether [load_state] goes on to return or
    to raise (a missing weights file, a wrong count), every attribute that is
    not [network], [pipeline], [traces] or [summary] ends up with the value
    of the file if the file names it, and as it was if not. *)
Theorem load_state_keeps_merged_attributes
    (setstate : value -> M pyobj unit)
    (load_model : string -> directory -> M Model unit)
    (load_dir : directory) (pairs : list (string * json)) (s : t) :
  load_dir !! "system.json" = Some (FJson (JObj pairs)) ->
  exists d,
    json_load (JObj pairs) = VDict d /\
    forall k, collaborator_name k = false ->
      getattr k (fst (load_state setstate load_model load_dir s)) =
      match dict_get k d with
      | Some v => Some (AValue v)
      | None => getattr k s
      end.
Proof.
  intros Hf.
  destruct (load_attributes_object load_dir pairs s Hf) as (d & s1 & Hd & Hrun & Hget).
  exists d. split; [exact Hd|]. intros k Hk. rewrite <- Hget.
  apply getattr_plain; [|exact Hk].
  rewrite load_state_run_steps. unfold load_steps.
  unfold run_steps at 1. cbn [for_each]. unfold bind at 1. rewrite Hrun.
  match goal with
  | |- plain_attributes (fst (?m s1)) = _ => change m with (run_steps (S := t)
      [load_models load_model load_dir; load_summary load_dir;
       load_traces setstate load_dir; load_tensor_ops setstate load_dir;
       load_numpy_ops setstate load_dir; load_datasets setstate load_dir])
  end.
  apply run_steps_invariant. intros step s' Hin. cbn in Hin.
  destruct Hin as [<-|[<-|[<-|[<-|[<-|[<-|[]]]]]]].
  - apply load_models_plain.
  - apply load_summary_plain.
  - apply load_traces_plain.
  - apply load_tensor_ops_plain.
  - apply load_numpy_ops_plain.
  - apply load_datasets_plain.
Qed.

(** ** The datasets, key by key *)




(** ** A [write_summary] that raises *)

Lemma lookup_vivify_mode (mode m k st : value) (h : dict (dict (dict value))) :
  hashable mode = true ->
  Summary.lookup m k st (vivify mode [] h) = Summary.lookup m k st h.
Proof.
  intros Hm. unfold Summary.lookup. unfold dict in *.
  destruct (key_eqb mode m) eqn:E.
  - rewrite !(dict_get_eqv m mode) by assumption.
    rewrite dict_get_vivify_eq by assumption.
    now destruct (dict_get mode h).
  - now rewrite dict_get_vivify_other.
Qed.

Lemma lookup_vivify_key (mode key m k st : value) (h : dict (dict (dict value))) :
  hashable key = true ->
  Summary.lookup m k st (dict_alter (vivify key []) mode h) = Summary.lookup m k st h.
Proof.
  intros Hk. unfold Summary.lookup. unfold dict in *.
  destruct (key_eqb mode m) eqn:E.
  - rewrite !(dict_get_eqv m mode) by assumption.
    rewrite dict_get_alter_same.
    destruct (dict_get mode h) as [by_key|]; [|reflexivity].
    cbn [fmap option_fmap option_map].
    destruct (key_eqb key k) eqn:Ek.
    + rewrite !(dict_get_eqv k key) by assumption.
      rewrite dict_get_vivify_eq by assumption.
      now destruct (dict_get key by_key).
    + now rewrite dict_get_vivify_other.
  - now rewrite dict_get_alter_other.
Qed.

(** X14.  A [write_summary] that raises records nothing: every entry of the
    metric log reads as before.  It raises only in two ways: [TypeError],
    when the experiment is named and the mode, the key or the step
    ([global_step or 0]) is unhashable; [AttributeError], when a non-empty
    plain value stands in the place of the summary. *)
Theorem write_summary_failure_records_nothing (key v : value) (s : t) (e : exn) :
  snd (write_summary key v s) = Raise e ->
  (forall m k st,
     metric m k st (fst (write_summary key v s)) = metric m k st s) /\
  ((e = TypeError /\
    exists sm, summary s = Live sm /\ Summary.bool sm = true /\
               hashable (mode s) && hashable key
               && hashable (py_or (global_step s) (VInt 0)) = false) \/
   (e = AttributeError /\ exists d, summary s = Data d /\ truthy d = true)).
Proof.
  unfold write_summary, bind, get, ret, raise.
  destruct (summary s) as [sm|d] eqn:Hsm.
  2:{ destruct (truthy d) eqn:Hd; [|discriminate].
      cbn [fst snd]. intros [= <-]. split; [reflexivity|]. right. eauto. }
  destruct (Summary.bool sm) eqn:Hb; [|discriminate].
  unfold zoom, history_store, bind, modify, raise.
  destruct (hashable (mode s)) eqn:Hm; cbn [negb andb].
  2:{ cbn [fst snd]. intros [= <-]. split.
      - intros m k st. unfold metric. rewrite summary_set_summary, Hsm. reflexivity.
      - left. eauto. }
  destruct (hashable key) eqn:Hk; cbn [negb andb].
  2:{ cbn [fst snd]. intros [= <-]. split.
      - intros m k st. unfold metric. rewrite summary_set_summary, Hsm.
        cbn [Summary.history Summary.set_history]. now apply lookup_vivify_mode.
      - left. eauto. }
  destruct (hashable (py_or (global_step s) (VInt 0))) eqn:Hs; cbn [negb andb];
    [discriminate|].
  cbn [fst snd]. intros [= <-]. split.
  - intros m k st. unfold metric. rewrite summary_set_summary, Hsm.
    cbn [Summary.history Summary.set_history].
    rewrite lookup_vivify_key by assumption. now apply lookup_vivify_mode.
  - left. eauto.
Qed.

(** ** The further properties on the example *)

(** A second metric at step 3 joins the first one. *)
Lemma write_summary_keeps_other_entries_witness :
  let s' := fst (write_summary (VStr "loss") (VInt 1) Demo.trained) in
  metric (VStr "train") (VStr "loss") (VInt 3) s' = Some (VInt 1) /\
  metric (VStr "train") (VStr "accuracy") (VInt 3) s' = Some (VInt 9).
Proof.
  intros s'.
  destruct (write_summary_keeps_other_entries (VStr "loss") (VInt 1) Demo.trained _
              eq_refl eq_refl eq_refl eq_refl eq_refl) as (h' & _ & Hall).
  unfold s'. rewrite !Hall. split; vm_compute; reflexivity.
Defined.

(** The run of the example: [reset("exp1", None)], three steps, one metric. *)
Lemma reset_steps_write_witness :
  let run := (do _ <- (do _ <- reset Demo.clock1 (VStr "exp1") VNone in
                       times 3 update_global_step) in
              write_summary (VStr "accuracy") (VInt 9)) in
  snd (run (Demo.system 7)) = Ok tt /\
  global_step (fst (run (Demo.system 7))) = VInt 3 /\
  metric (VStr "train") (VStr "accuracy") (VInt 3) (fst (run (Demo.system 7)))
  = Some (VInt 9).
Proof.
  intros run.
  destruct (reset_steps_write Demo.clock1 (VStr "exp1") VNone (VStr "accuracy") (VInt 9)
              3 (Demo.system 7) eq_refl) as (Hok & Hg & Hnamed & _).
  split; [exact Hok|]. split; [exact Hg | exact (Hnamed eq_refl)].
Defined.


(** The example checkpoint without its summary file. *)
Lemma load_state_missing_files_witness :
  let s1 := fst (run_steps [load_attributes Demo.checkpoint_without_summary;
                            load_models Demo.load_model Demo.checkpoint_without_summary]
                   (Demo.system 0)) in
  load_state Demo.setstate Demo.load_model Demo.checkpoint_without_summary (Demo.system 0)
  = (s1, Raise (FileNotFoundError (SummaryFile "summary.pkl"))).
Proof.
  intros s1.
  assert (Hf : Demo.checkpoint_without_summary !! "summary.pkl" = None)
    by (vm_compute; reflexivity).
  apply (proj1 (proj2 (load_state_missing_files Demo.setstate Demo.load_model
                         Demo.checkpoint_without_summary)) Hf).
  unfold s1. apply returned. vm_compute. reflexivity.
Defined.

(** An op of the example takes a persisted probability. *)
Lemma restore_merges_field_bag_witness :
  exists fields',
    restore Demo.setstate (VDict [(VStr "prob", VInt 5)]) (Demo.op 1)
    = (Inst Demo.bag fields', Ok tt) /\
    dict_get (VStr "prob") fields' = Some (VInt 5).
Proof.
  assert (Hu : unique_keys [(VStr "prob", VInt 5)]) by (split; [reflexivity | exact I]).
  destruct (proj1 (proj2 (proj2 (restore_merges_field_bag Demo.setstate Demo.bag
                                   [(VStr "prob", VInt 1)])) eq_refl eq_refl)
              [(VStr "prob", VInt 5)] Hu) as (fields' & Hrun & Hget).
  exists fields'. split; [exact Hrun|]. rewrite Hget. reflexivity.
Defined.



(** The blobs of the example checkpoint. *)
Lemma save_state_blob_shapes_witness :
  exists st_tr ds,
    Demo.checkpoint !! "traces.pkl" = Some (FPickle (VList st_tr)) /\
    Demo.checkpoint !! "ds.pkl" = Some (FPickle (VDict ds)).
Proof.
  assert (Hsave : save_state Demo.getstate Demo.save_model Demo.trained ∅
                  = (Demo.checkpoint, Ok tt))
    by (unfold Demo.checkpoint; apply returned; vm_compute; reflexivity).
  destruct (save_state_blob_shapes Demo.getstate Demo.save_model Demo.trained ∅
              Demo.checkpoint Hsave)
    as (net & pipe & tr & st_tr & st_to & st_no & ds & _ & _ & _ & Htr & _ & _ & _ & _
        & _ & Hds & _).
  exists st_tr, ds. split; [exact Htr | exact Hds].
Defined.

(** The second trace holds a lock: the save stops there. *)
Lemma save_state_interrupted_by_trace_witness :
  let r := save_state Demo.getstate_unlocked Demo.save_model Demo.system_with_lock ∅ in
  snd r = Raise TypeError /\ fst r !! "traces.pkl" = Some FEmpty.
Proof.
  intros r.
  destruct (state_json (List.filter (fun kv => is_restorable (snd kv))
                          (items Demo.system_with_lock))) as [j|] eqn:Hj;
    [|vm_compute in Hj; discriminate].
  assert (Hok : forall d, snd (for_each (Network.models (Demo.network 7))
                                 Demo.save_model d) = Ok tt) by (intros d; reflexivity).
  assert (Hkeep : forall d : directory,
            fst (for_each (Network.models (Demo.network 7)) Demo.save_model d)
              !! "system.json" = d !! "system.json").
  { intros d. cbn. unfold bind, write, modify. cbn.
    now rewrite !lookup_insert_ne by discriminate. }
  assert (Hpre : Forall (fun o' => exists x,
                           getstate_or_empty Demo.getstate_unlocked o' = Ok x)
                   [Demo.trace 7]).
  { constructor; [eexists; reflexivity | constructor]. }
  destruct (save_state_interrupted_by_trace Demo.getstate_unlocked Demo.save_model
              Demo.setstate Demo.system_with_lock (Demo.network 7) j
              [Demo.trace 7] Demo.locked_trace [] TypeError ∅
              Hj eq_refl Hok Hkeep eq_refl Hpre eq_refl eq_refl)
    as (Hraise & _ & _ & Hempty & _).
  split; [exact Hraise | exact Hempty].
Defined.

(** The example, restored, takes two more steps. *)
Lemma restored_run_goes_on_counting_witness :
  let f' := fst (load_state Demo.setstate Demo.load_model Demo.checkpoint
                   (Demo.system 0)) in
  times 2 update_global_step f' = (set_global_step (VInt 5) f', Ok tt) /\
  metric (VStr "train") (VStr "accuracy") (VInt 3) f' = Some (VInt 9).
Proof.
  intros f'.
  assert (Hsave : save_state Demo.getstate Demo.save_model Demo.trained ∅
                  = (Demo.checkpoint, Ok tt))
    by (unfold Demo.checkpoint; apply returned; vm_compute; reflexivity).
  assert (Hload : load_state Demo.setstate Demo.load_model Demo.checkpoint
                    (Demo.system 0) = (f', Ok tt))
    by (unfold f'; apply returned; vm_compute; reflexivity).
  assert (Hnet : network Demo.trained = Live (Demo.network 7))
    by (vm_compute; reflexivity).
  assert (Hkeep : forall net m d d',
            network Demo.trained = Live net -> In m (Network.models net) ->
            Demo.save_model m d = (d', Ok tt) ->
            d' !! "system.json" = d !! "system.json").
  { intros net m d d' Hn. rewrite Hnet in Hn. injection Hn as <-.
    intros Hin Hs. exact (proj1 (demo_save_model_files m d d' Hin Hs)). }
  assert (Hex : extra_ok Demo.trained) by (intros k n []).
  destruct (restored_run_goes_on_counting
              Demo.getstate Demo.setstate Demo.save_model Demo.load_model
              Demo.trained _ 3 ∅ Demo.checkpoint
              (Demo.network 0) (Demo.pipeline 0) [Demo.trace 0]
              VNone (VInt 1) (VInt 100) (VInt 5) VNone VNone VNone f'
              Hkeep Hex eq_refl eq_refl eq_refl eq_refl eq_refl Hsave Hload)
    as (Hcount & Hmetric).
  split; [exact (Hcount 2%nat)|]. rewrite Hmetric. vm_compute. reflexivity.
Defined.

(** An attribute file in an otherwise empty directory: [load_state] raises
    for want of the weights, and the note of the file is there. *)
Lemma load_state_keeps_merged_attributes_witness :
  let dir : directory := <["system.json" := FJson (JObj [("note", JStr "x")])]> ∅ in
  snd (load_state Demo.setstate Demo.load_model dir (Demo.system 0))
  = Raise (FileNotFoundError (ModelWeightsFile "lenet.pt")) /\
  getattr (VStr "note") (fst (load_state Demo.setstate Demo.load_model dir (Demo.system 0)))
  = Some (AValue (VStr "x")).
Proof.
  intros dir. split; [vm_compute; reflexivity|].
  destruct (load_state_keeps_merged_attributes Demo.setstate Demo.load_model dir
              [("note", JStr "x")] (Demo.system 0) eq_refl) as (d & Hd & Hall).
  rewrite Hall by reflexivity.
  cbn [json_load] in Hd. injection Hd as <-. reflexivity.
Defined.


(** A list is no key: nothing of the example's log changes. *)
Lemma write_summary_failure_records_nothing_witness :
  snd (write_summary (VList []) (VInt 1) Demo.trained) = Raise TypeError /\
  metric (VStr "train") (VStr "accuracy") (VInt 3)
    (fst (write_summary (VList []) (VInt 1) Demo.trained)) = Some (VInt 9).
Proof.
  assert (Hraise : snd (write_summary (VList []) (VInt 1) Demo.trained) = Raise TypeError)
    by (vm_compute; reflexivity).
  split; [exact Hraise|].
  destruct (write_summary_failure_records_nothing (VList []) (VInt 1) Demo.trained
              TypeError Hraise) as (Hmetric & _).
  rewrite Hmetric. vm_compute. reflexivity.
Defined.
